(** * pdf-image-replace-backend: the document manager, verified

    A shallow embedding of [app/document_manager.py] (class
    [DocumentManager]) and the properties of it that the specification
    states.

    What is modelled, and how:
    - Python [str] is [string], [bytes] is [list byte], [int] is [Z];
      the coordinates of rectangles are Python floats that the code only
      copies and never computes with: they are rationals ([Q]) here.
    - [pathlib.Path] (POSIX flavour) is a record of a root and the list of
      name components, with [PurePosixPath]'s parsing and its [/] operator.
    - The storage directory is a finite map from paths to file contents;
      the methods run in a small state-and-exception monad over it.
      [Path.exists] is a lookup by the path as written, and lets the
      [OSError] of the operating system through for a name that is too
      long.
    - PyMuPDF ([fitz]) and Pillow ([PIL]) are not part of the repository:
      they are parameters (records of functions), and what an opened
      document reports to the read-only calls is a record of data. What
      is fixed of them is what the code meets on every run: the module
      [fitz] has no attribute [csRGBA], and the pixmap constructor
      refuses a buffer that has not the length of the picture. *)

From Stdlib Require Import ZArith QArith Ascii String.
From Stdlib.Strings Require Import Byte.
From stdpp Require Import gmap strings list fin_maps.

Local Open Scope string_scope.
Local Open Scope Z_scope.
Local Open Scope list_scope.

(** ** Python values *)

Abbreviation bytes := (list Byte.byte).

(** The exceptions that cross [DocumentManager]'s methods, with their
    messages. *)
Inductive exn : Type :=
  | FileNotFoundError (msg : string)
  | ValueError (msg : string)
  | RuntimeError (msg : string)
  | FileDataError (msg : string)     (* fitz: a subclass of RuntimeError *)
  | OSError (msg : string)
  | UnidentifiedImageError (msg : string) (* PIL: a subclass of OSError *)
  | AttributeError (msg : string).

(** [isinstance(e, RuntimeError)], what [except RuntimeError] catches. *)
Definition isinstance_RuntimeError (e : exn) : bool :=
  match e with
  | RuntimeError _ | FileDataError _ => true
  | _ => false
  end.

Inductive Result (A : Type) : Type :=
  | Return (a : A)
  | Raise (e : exn).
Arguments Return {A} a.
Arguments Raise {A} e.

(** ** base64.b64encode *)

Module base64.

Definition alphabet : string :=
  "ABCDEFGHIJKLMNOPQRSTUVWXYZabcdefghijklmnopqrstuvwxyz0123456789+/".

Definition sextet (n : N) : ascii :=
  match String.get (N.to_nat n) alphabet with
  | Some c => c
  | None => "="%char
  end.

Definition pad : ascii := "="%char.

Fixpoint b64encode (s : bytes) : string :=
  match s with
  | [] => ""
  | [a] =>
      let n := (Byte.to_N a * 16)%N in
      String (sextet (n / 64)) (String (sextet (n mod 64))
        (String pad (String pad "")))
  | [a; b] =>
      let n := ((Byte.to_N a * 256 + Byte.to_N b) * 4)%N in
      String (sextet (n / 4096)) (String (sextet ((n / 64) mod 64))
        (String (sextet (n mod 64)) (String pad "")))
  | a :: b :: c :: rest =>
      let n := ((Byte.to_N a * 256 + Byte.to_N b) * 256 + Byte.to_N c)%N in
      String (sextet (n / 262144)) (String (sextet ((n / 4096) mod 64))
        (String (sextet ((n / 64) mod 64)) (String (sextet (n mod 64))
          (b64encode rest))))
  end.

End base64.

(** ** pathlib (POSIX flavour) *)

Module pathlib.

(** The root of a path: none (relative), ["/"], or the ["//"] that POSIX
    keeps apart when a path starts with exactly two slashes. *)
Inductive Root : Type := NoRoot | Slash | DoubleSlash.

Record Path : Type := { root : Root; tail : list string }.

#[global] Instance Root_eq_dec : EqDecision Root.
Proof. solve_decision. Defined.

#[global] Instance Path_eq_dec : EqDecision Path.
Proof. solve_decision. Defined.

Definition Root_to_nat (r : Root) : nat :=
  match r with NoRoot => 0 | Slash => 1 | DoubleSlash => 2 end%nat.

Definition Root_of_nat (n : nat) : Root :=
  match n with O => NoRoot | S O => Slash | _ => DoubleSlash end.

#[global] Instance Root_countable : Countable Root.
Proof.
  apply (inj_countable' Root_to_nat Root_of_nat). by intros [].
Defined.

#[global] Instance Path_countable : Countable Path.
Proof.
  apply (inj_countable' (fun p => (root p, tail p))
           (fun rt => {| root := rt.1; tail := rt.2 |})).
  by intros [].
Defined.

(** [s.split("/")]. *)
Fixpoint split_slash (s : string) : list string :=
  match s with
  | EmptyString => [EmptyString]
  | String c s' =>
      if Ascii.eqb c "/"%char then EmptyString :: split_slash s'
      else match split_slash s' with
           | x :: xs => String c x :: xs
           | [] => [String c EmptyString]
           end
  end.

Definition is_name (x : string) : bool :=
  negb (String.eqb x "") && negb (String.eqb x ".").

(** The name components of a path string: empty components and ["."]
    are dropped, [".."] is kept. *)
Definition parse_tail (s : string) : list string :=
  List.filter is_name (split_slash s).

Definition parse_root (s : string) : Root :=
  match s with
  | String "/" (String "/" (String "/" _)) => Slash
  | String "/" (String "/" _) => DoubleSlash
  | String "/" _ => Slash
  | _ => NoRoot
  end.

Definition is_absolute_str (s : string) : bool :=
  match s with
  | String "/" _ => true
  | _ => false
  end.

(** [PurePosixPath(s)]. *)
Definition PurePosixPath (s : string) : Path :=
  {| root := parse_root s; tail := parse_tail s |}.

(** [p / key]: an absolute [key] replaces [p] altogether. *)
Definition truediv (p : Path) (key : string) : Path :=
  if is_absolute_str key then PurePosixPath key
  else {| root := root p; tail := tail p ++ parse_tail key |}.


End pathlib.

Abbreviation Path := pathlib.Path.

(** ** The storage directory and the monad of the methods *)

(** The files of the file system: path to content. *)
Abbreviation FS := (gmap Path bytes).

Definition M (A : Type) : Type := FS -> Result A * FS.

#[global] Instance M_ret : MRet M := fun A a fs => (Return a, fs).

#[global] Instance M_bind : MBind M := fun A B f m fs =>
  match m fs with
  | (Return a, fs') => f a fs'
  | (Raise e, fs') => (Raise e, fs')
  end.

Definition raise {A : Type} (e : exn) : M A := fun fs => (Raise e, fs).

Definition lift {A : Type} (r : Result A) : M A := fun fs => (r, fs).

(** The limits of the operating system on a file name and on a whole
    path, in bytes. *)
Definition NAME_MAX : nat := 255.
Definition PATH_MAX : nat := 4096.

(** The length of the path written out, [len(str(path))]. *)
Definition path_length (path : Path) : nat :=
  (match pathlib.root path with
   | pathlib.NoRoot => 0
   | pathlib.Slash => 1
   | pathlib.DoubleSlash => 2
   end
   + foldr (fun name n => String.length name + n) 0 (pathlib.tail path)
   + Nat.pred (length (pathlib.tail path)))%nat.

(** The operating system refuses the path as too long ([ENAMETOOLONG]):
    one of its names exceeds [NAME_MAX], or the whole, with its final
    zero byte, exceeds [PATH_MAX]. *)
Definition name_too_long (path : Path) : bool :=
  existsb (fun name => (NAME_MAX <? String.length name)%nat) (pathlib.tail path)
  || (PATH_MAX <=? path_length path)%nat.

(** [path.exists()]: true for a file of the store; for a path that the
    store has no file at, false, unless the operating system refuses the
    path as too long: [exists] lets that [OSError] through. The store is
    keyed by the path as written: a path with a [..] component is a key of
    its own. *)
Definition exists_ (path : Path) : M bool :=
  fun fs =>
    match fs !! path with
    | Some _ => (Return true, fs)
    | None =>
        if name_too_long path
        then (Raise (OSError "File name too long"), fs)
        else (Return false, fs)
    end.

(** [path.write_bytes(data)] *)
Definition write_bytes (path : Path) (data : bytes) : M unit :=
  fun fs => (Return tt, <[path := data]> fs).

(** [path.read_bytes()], which the engine does when it opens a path. *)
Definition read_bytes (path : Path) : M bytes :=
  fun fs =>
    match fs !! path with
    | Some data => (Return data, fs)
    | None => (Raise (FileNotFoundError "no such file"), fs)
    end.


#[global] Instance Result_ret : MRet Result := fun A a => Return a.

#[global] Instance Result_bind : MBind Result := fun A B f r =>
  match r with
  | Return a => f a
  | Raise e => Raise e
  end.

(** ** What PyMuPDF hands to the code *)

Module Rect.
(** [fitz.Rect]: the corners, and the [width] and [height] attributes as
    the engine reports them. *)
Record t : Type := { x0 : Q; y0 : Q; x1 : Q; y1 : Q; width : Q; height : Q }.
End Rect.

Module ImageEntry.
(** An item of [page.get_images(full=True)]; the code reads item 0. *)
Record t : Type := {
  xref : Z; smask : Z; width : Z; height : Z; bpc : Z;
  colorspace : string; alt_colorspace : string; name : string;
  filter : string; referencer : Z }.
End ImageEntry.

Module ImageInfo.
(** The dict of [doc.extract_image(xref)], at the keys the code reads;
    [None] is an absent key. *)
Record t : Type := {
  image : option bytes; width : option Z; height : option Z;
  ext : option string }.
End ImageInfo.

(** What [doc.extract_image] returns: a dict or something else. *)
Inductive PyObject : Type :=
  | NotADict
  | Dict (d : ImageInfo.t).

Module Page.
Record t : Type := {
  rect : Rect.t;
  get_images : list ImageEntry.t;         (* page.get_images(full=True) *)
  get_image_rects : Z -> Result (list Rect.t) }.
End Page.

Module Document.
Record t : Type := {
  pages : list Page.t;
  xref_is_image : Z -> bool;
  extract_image : Z -> Result PyObject }.

Definition page_count (doc : t) : Z := Z.of_nat (length (pages doc)).

(** [doc.load_page(n)] for [0 <= n]. *)
Definition load_page (doc : t) (n : Z) : Result Page.t :=
  match pages doc !! Z.to_nat n with
  | Some page => Return page
  | None => Raise (ValueError "page not in document")
  end.
End Document.

(** The colorspaces that PyMuPDF defines: [fitz.csGRAY], [fitz.csRGB] and
    [fitz.csCMYK]. *)
Inductive Colorspace : Type := csGRAY | csRGB | csCMYK.

(** The number of samples per pixel. *)
Definition Colorspace_n (cs : Colorspace) : Z :=
  match cs with csGRAY => 1 | csRGB => 3 | csCMYK => 4 end.

(** [fitz.csRGB] *)
Definition fitz_csRGB : Result Colorspace := Return csRGB.

(** [fitz.csRGBA]: the module has no attribute of that name. *)
Definition fitz_csRGBA : Result Colorspace :=
  Raise (AttributeError "module 'fitz' has no attribute 'csRGBA'").

Module Pixmap.
(** A pixmap is what its constructor was given. *)
Record t : Type := {
  colorspace : Colorspace; width : Z; height : Z; samples : bytes }.
End Pixmap.

Inductive Encryption : Type := PDF_ENCRYPT_KEEP | PDF_ENCRYPT_NONE.

(** The PDF engine. [fitz_open] parses the bytes of a PDF; [get_pixmap_png]
    is [page.get_pixmap(matrix=fitz.Matrix(a, d), alpha=...).tobytes("png")];
    [Pixmap_init] is what else the pixmap constructor checks, once the
    buffer has the length of the picture ([Some e]: it raises [e]);
    [replace_image] is [page.replace_image] on the page of
    that index; [save] is [doc.save]: from the current content of the
    target file (if any) to its new content, and a save that raises is
    taken to leave the file as it was. *)
Record Fitz : Type := {
  fitz_open : bytes -> Result Document.t;
  get_pixmap_png : Page.t -> Q -> Q -> bool -> Result bytes;
  Pixmap_init : Colorspace -> Z -> Z -> bytes -> option exn;
  replace_image : Document.t -> Z -> Z -> Pixmap.t -> Result Document.t;
  save : Document.t -> option bytes -> bool -> Encryption -> Result bytes }.

(** What the code relies on when it saves with [incremental=True]: the
    engine appends to the file it opened. *)
Definition incremental_save_appends (fitz : Fitz) : Prop :=
  forall doc old enc new,
    save fitz doc (Some old) true enc = Return new -> old `prefix_of` new.

(** ** What Pillow hands to the code *)

Module Image.
(** [PIL.Image.Image]: its attributes, and what the decoder holds for it
    (the encoded file before it is loaded, the pixels after). *)
Record t : Type := {
  mode : string; width : Z; height : Z; payload : bytes }.
End Image.

Record Pillow : Type := {
  Image_open : bytes -> Result Image.t;
  convert : Image.t -> string -> Result Image.t;
  tobytes : Image.t -> Result bytes }.

(** Pillow's [convert]: the result has the mode asked for, and converting
    an image that loads to its own mode copies it. *)
Record PillowLaws (pil : Pillow) : Prop := {
  convert_mode : forall im m im',
    convert pil im m = Return im' -> Image.mode im' = m;
  convert_copy : forall im s,
    tobytes pil im = Return s ->
    exists im', convert pil im (Image.mode im) = Return im'
                /\ tobytes pil im' = Return s }.

(** ** app/document_manager.py *)

Module PageImage.
Record t : Type := {
  index : Z;
  bbox : Q * Q * Q * Q;
  width : Z;
  height : Z;
  xref : Z;
  preview_base64 : string;
  extension : string }.
End PageImage.

Record DocumentManager : Type := { storage_root : Path }.

Section DocumentManager.

Variable fitz : Fitz.
Variable pil : Pillow.
Variable self : DocumentManager.

Definition _document_path (doc_id : string) : Path :=
  pathlib.truediv (storage_root self) (doc_id +:+ ".pdf").

Definition _ensure_document (doc_id : string) : M Path :=
  let path := _document_path doc_id in
  b ← exists_ path;
  if negb b then raise (FileNotFoundError "Document not found")
  else mret path.

Definition get_pdf_file (doc_id : string) : M Path :=
  _ensure_document doc_id.

(** [fitz.Pixmap(cs, width, height, samples)]: the constructor refuses a
    buffer whose length is not that of the picture. *)
Definition fitz_Pixmap (cs : Colorspace) (w h : Z) (samples : bytes)
  : Result Pixmap.t :=
  if negb (Z.of_nat (length samples) =? w * h * Colorspace_n cs) then
    Raise (ValueError "bad samples length")
  else
    match Pixmap_init fitz cs w h samples with
    | Some e => Raise e
    | None => Return {| Pixmap.colorspace := cs; Pixmap.width := w;
                        Pixmap.height := h; Pixmap.samples := samples |}
    end.

(** [mode in {"RGB", "RGBA"}] *)
Definition mode_is_rgb_or_rgba (mode : string) : bool :=
  String.eqb mode "RGB" || String.eqb mode "RGBA".

Definition _pixmap_from_bytes (raw_bytes : bytes) : Result Pixmap.t :=
  pil_img ← Image_open pil raw_bytes;
  pil_img ← (if negb (mode_is_rgb_or_rgba (Image.mode pil_img))
             then convert pil pil_img "RGBA"
             else Return pil_img);
  if String.eqb (Image.mode pil_img) "RGBA" then
    samples ← tobytes pil pil_img;
    cs ← fitz_csRGBA;
    fitz_Pixmap cs (Image.width pil_img) (Image.height pil_img) samples
  else
    rgb ← convert pil pil_img "RGB";
    samples ← tobytes pil rgb;
    cs ← fitz_csRGB;
    fitz_Pixmap cs (Image.width pil_img) (Image.height pil_img) samples.

(** [fitz.open(path)]: the engine reads the file and parses it. *)
Definition fitz_open_path (path : Path) : M Document.t :=
  data ← read_bytes path;
  lift (fitz_open fitz data).

(** [save_pdf]; [uuid4_hex] is the value that [uuid.uuid4().hex] draws. *)
Definition save_pdf (uuid4_hex : string) (file_bytes : bytes)
  : M (string * Z) :=
  let doc_id := uuid4_hex in
  let path := _document_path doc_id in
  _ ← write_bytes path file_bytes;
  doc ← lift (fitz_open fitz file_bytes);
  let page_count := Document.page_count doc in
  mret (doc_id, page_count).

Definition valid_page (doc : Document.t) (page_number : Z) : bool :=
  (1 <=? page_number) && (page_number <=? Document.page_count doc).

Definition get_page_preview (doc_id : string) (page_number : Z) (zoom : Q)
  : M (string * Q * Q) :=
  path ← _ensure_document doc_id;
  doc ← fitz_open_path path;
  if negb (valid_page doc page_number) then
    raise (ValueError "Invalid page number")
  else
    page ← lift (Document.load_page doc (page_number - 1));
    png ← lift (get_pixmap_png fitz page zoom zoom false);
    let preview_b64 := base64.b64encode png in
    let rect := Page.rect page in
    mret (preview_b64, Rect.width rect, Rect.height rect).

(** The inner loop of [list_page_images]: one occurrence per placement
    rectangle, the counter advancing with each. *)
Fixpoint append_rects (xref : Z) (image_info : ImageInfo.t) (preview : string)
    (rects : list Rect.t) (images : list PageImage.t) (counter : Z)
  : list PageImage.t * Z :=
  match rects with
  | [] => (images, counter)
  | rect :: rects' =>
      let bbox := (Rect.x0 rect, Rect.y0 rect, Rect.x1 rect, Rect.y1 rect) in
      let images := images ++ [
        {| PageImage.index := counter;
           PageImage.bbox := bbox;
           PageImage.width := default 0 (ImageInfo.width image_info);
           PageImage.height := default 0 (ImageInfo.height image_info);
           PageImage.xref := xref;
           PageImage.preview_base64 := preview;
           PageImage.extension := default "png" (ImageInfo.ext image_info) |} ] in
      append_rects xref image_info preview rects' images (counter + 1)
  end.

(** The outer loop of [list_page_images], over [page.get_images(full=True)]. *)
Fixpoint index_entries (doc : Document.t) (page : Page.t)
    (entries : list ImageEntry.t) (images : list PageImage.t) (counter : Z)
  : Result (list PageImage.t) :=
  match entries with
  | [] => Return images
  | image_entry :: entries' =>
      let xref := ImageEntry.xref image_entry in
      match Page.get_image_rects page xref with
      | Raise e => Raise e
      | Return [] => index_entries doc page entries' images counter
      | Return ((_ :: _) as rects) =>
          if negb (Document.xref_is_image doc xref) then
            index_entries doc page entries' images counter
          else
            match Document.extract_image doc xref with
            | Raise e =>
                if isinstance_RuntimeError e then
                  index_entries doc page entries' images counter
                else Raise e
            | Return NotADict =>
                index_entries doc page entries' images counter
            | Return (Dict image_info) =>
                match ImageInfo.image image_info with
                | None => index_entries doc page entries' images counter
                | Some image =>
                    let preview := base64.b64encode image in
                    let '(images, counter) :=
                      append_rects xref image_info preview rects images counter in
                    index_entries doc page entries' images counter
                end
            end
      end
  end.

Definition list_page_images (doc_id : string) (page_number : Z)
  : M (list PageImage.t * (Q * Q)) :=
  path ← _ensure_document doc_id;
  doc ← fitz_open_path path;
  if negb (valid_page doc page_number) then
    raise (ValueError "Invalid page number")
  else
    page ← lift (Document.load_page doc (page_number - 1));
    let page_rect := Page.rect page in
    images ← lift (index_entries doc page (Page.get_images page) [] 0);
    mret (images, (Rect.width page_rect, Rect.height page_rect)).

(** [doc.save(path, incremental=..., encryption=...)] *)
Definition Document_save (doc : Document.t) (path : Path)
    (incremental : bool) (encryption : Encryption) : M unit :=
  fun fs =>
    match save fitz doc (fs !! path) incremental encryption with
    | Return new => (Return tt, <[path := new]> fs)
    | Raise e => (Raise e, fs)
    end.

(** [next((img for img in images if img.index == image_index), None)] *)
Definition find_index (images : list PageImage.t) (image_index : Z)
  : option PageImage.t :=
  List.find (fun img => PageImage.index img =? image_index) images.

Definition replace_page_image (doc_id : string) (page_number : Z)
    (image_index : Z) (new_image_bytes : bytes) : M unit :=
  path ← _ensure_document doc_id;
  '(images, _) ← list_page_images doc_id page_number;
  match find_index images image_index with
  | None => raise (ValueError "Image index not found on page")
  | Some target =>
      pix ← lift (_pixmap_from_bytes new_image_bytes);
      doc ← fitz_open_path path;
      page ← lift (Document.load_page doc (page_number - 1));
      doc ← lift (replace_image fitz doc (page_number - 1)
                    (PageImage.xref target) pix);
      Document_save doc path true PDF_ENCRYPT_KEEP
  end.

End DocumentManager.

(** ** A small store, engine and decoder to run the methods on *)

Module Fixture.

Definition manager : DocumentManager :=
  {| storage_root := pathlib.PurePosixPath "/srv/storage" |}.

Definition mkRect (a b c d : Q) : Rect.t :=
  {| Rect.x0 := a; Rect.y0 := b; Rect.x1 := c; Rect.y1 := d;
     Rect.width := c - a; Rect.height := d - b |}.

Definition entry (xref : Z) : ImageEntry.t :=
  {| ImageEntry.xref := xref; ImageEntry.smask := 0;
     ImageEntry.width := 512; ImageEntry.height := 512; ImageEntry.bpc := 8;
     ImageEntry.colorspace := "DeviceRGB"; ImageEntry.alt_colorspace := "";
     ImageEntry.name := "Im"; ImageEntry.filter := "DCTDecode";
     ImageEntry.referencer := 0 |}.

(** Page 1: image 5 placed once, 6 a soft mask without placement, 7 placed
    twice, 8 placed partly off the page, 9 with a stream that does not
    extract, 10 not an image object. *)
Definition page1 : Page.t :=
  {| Page.rect := mkRect 0 0 612 792;
     Page.get_images := [entry 5; entry 6; entry 7; entry 8; entry 9; entry 10];
     Page.get_image_rects := fun xref =>
       Return
         (if xref =? 5 then [mkRect 72 72 288 288]
          else if xref =? 7 then [mkRect 300 72 400 172; mkRect 300 200 400 300]
          else if xref =? 8 then [mkRect 500 700 716 916]
          else if xref =? 9 then [mkRect 10 10 20 20]
          else if xref =? 10 then [mkRect 30 30 40 40]
          else []) |}.

Definition page2 : Page.t :=
  {| Page.rect := mkRect 0 0 612 792;
     Page.get_images := [];
     Page.get_image_rects := fun _ => Return [] |}.

Definition info : ImageInfo.t :=
  {| ImageInfo.image := Some (list_byte_of_string "JPG");
     ImageInfo.width := Some 512; ImageInfo.height := Some 512;
     ImageInfo.ext := Some "jpeg" |}.

Definition document : Document.t :=
  {| Document.pages := [page1; page2];
     Document.xref_is_image := fun xref => negb (xref =? 10);
     Document.extract_image := fun xref =>
       if xref =? 9 then Raise (RuntimeError "unsupported filter")
       else Return (Dict info) |}.



(** The engine: a file that starts with ['%'] parses (to [document]); the
    pixmap constructor takes what it is given; an incremental save appends
    a new section to the file. *)
Definition engine : Fitz :=
  {| fitz_open := fun data =>
       match data with
       | "%"%byte :: _ => Return document
       | _ => Raise (FileDataError "Failed to open stream")
       end;
     get_pixmap_png := fun _ _ _ _ => Return (list_byte_of_string "PNG");
     Pixmap_init := fun _ _ _ _ => None;
     replace_image := fun doc _ _ _ => Return doc;
     save := fun _ old incremental _ =>
       let section := list_byte_of_string "xref" in
       match old, incremental with
       | Some data, true => Return (data ++ section)
       | _, _ => Return section
       end |}.


(** The decoder: the first byte of a file is its mode (['R'] for RGB, ['A']
    for RGBA, ['L'] for grayscale), the rest the pixels of a picture one
    pixel high and two wide; conversion to another mode pads the pixels. *)
Definition decoder : Pillow :=
  {| Image_open := fun data =>
       match data with
       | "R"%byte :: px =>
           Return {| Image.mode := "RGB"; Image.width := 2; Image.height := 1;
                     Image.payload := px |}
       | "A"%byte :: px =>
           Return {| Image.mode := "RGBA"; Image.width := 2; Image.height := 1;
                     Image.payload := px |}
       | "L"%byte :: px =>
           Return {| Image.mode := "L"; Image.width := 2; Image.height := 1;
                     Image.payload := px |}
       | _ => Raise (UnidentifiedImageError "cannot identify image file")
       end;
     convert := fun im m =>
       if String.eqb (Image.mode im) m then Return im
       else Return {| Image.mode := m; Image.width := Image.width im;
                      Image.height := Image.height im;
                      Image.payload := Image.payload im ++ [Byte.xff] |};
     tobytes := fun im => Return (Image.payload im) |}.

Definition pdf_bytes : bytes := list_byte_of_string "%PDF-1.7 two pages".

(** A store with one uploaded document, ["doc"]. *)
Definition store : FS :=
  {[ _document_path manager "doc" := pdf_bytes ]}.

Definition occ (index : Z) (xref : Z) (a b c d : Q) : PageImage.t :=
  {| PageImage.index := index; PageImage.bbox := (a, b, c, d);
     PageImage.width := 512; PageImage.height := 512; PageImage.xref := xref;
     PageImage.preview_base64 := "SlBH"; PageImage.extension := "jpeg" |}.

(** What the listing of page 1 is. *)
Definition page1_images : list PageImage.t :=
  [ occ 0 5 72 72 288 288; occ 1 7 300 72 400 172; occ 2 7 300 200 400 300;
    occ 3 8 500 700 716 916 ].

End Fixture.

(** ** app/schemas.py *)

Module UploadResponse.
Record t : Type := { document_id : string; page_count : Z }.
End UploadResponse.

Module PagePreviewResponse.
Record t : Type := {
  document_id : string; page_number : Z; width : Q; height : Q;
  preview_data_url : string }.
End PagePreviewResponse.

Module PageImageMetadata.
Record t : Type := {
  index : Z; bbox : list Q; width : Z; height : Z;
  preview_data_url : string }.
End PageImageMetadata.

Module PageImagesResponse.
Record t : Type := {
  document_id : string; page_number : Z; width : Q; height : Q;
  images : list PageImageMetadata.t }.
End PageImagesResponse.

Module ReplaceImageResponse.
Record t : Type := {
  document_id : string; page_number : Z; image_index : Z; status : string }.
End ReplaceImageResponse.

Module FileResponse.
Record t : Type := { path : Path; media_type : string; filename : string }.
End FileResponse.

(** ** app/main.py *)

Module UploadFile.
(** The uploaded file: its declared content type (if any) and what
    [await file.read()] gives. *)
Record t : Type := { content_type : option string; content : bytes }.
End UploadFile.

(** How a route function ends: it returns a body, with the headers it set
    on the response; it raises [HTTPException]; or an exception leaves it
    uncaught. *)
Inductive Outcome (A : Type) : Type :=
  | Respond (body : A) (headers : list (string * string))
  | HTTPException (status_code : Z) (detail : string)
  | Uncaught (e : exn).
Arguments Respond {A} body headers.
Arguments HTTPException {A} status_code detail.
Arguments Uncaught {A} e.

(** [str(exc)] *)
Definition str (e : exn) : string :=
  match e with
  | FileNotFoundError msg | ValueError msg | RuntimeError msg
  | FileDataError msg | OSError msg | UnidentifiedImageError msg
  | AttributeError msg => msg
  end.

(** [isinstance(e, (FileNotFoundError, ValueError))] *)
Definition isinstance_FileNotFoundError_or_ValueError (e : exn) : bool :=
  match e with
  | FileNotFoundError _ | ValueError _ => true
  | _ => false
  end.

(** [isinstance(e, FileNotFoundError)] *)
Definition isinstance_FileNotFoundError (e : exn) : bool :=
  match e with
  | FileNotFoundError _ => true
  | _ => false
  end.

(** [content_type in allowed], for a content type that may be [None]. *)
Definition content_type_in (content_type : option string)
    (allowed : list string) : bool :=
  match content_type with
  | Some s => existsb (String.eqb s) allowed
  | None => false
  end.

Module main.

Section Routes.

Variable fitz : Fitz.
Variable pil : Pillow.
Variable document_manager : DocumentManager.

(** The headers after [response.headers["Cache-Control"] = "no-store"],
    which the route does when it is given a response. *)
Definition no_store (response : bool) : list (string * string) :=
  if response then [("Cache-Control", "no-store")] else [].

(** [POST /upload]; [uuid4_hex] is the identifier that [save_pdf] draws. *)
Definition upload_pdf (file : UploadFile.t) (uuid4_hex : string)
  : FS -> Outcome UploadResponse.t * FS :=
  fun fs =>
    if negb (content_type_in (UploadFile.content_type file)
               ["application/pdf"; "application/octet-stream"])
    then (HTTPException 400 "Only PDF files are supported", fs)
    else
      let file_bytes := UploadFile.content file in
      match save_pdf fitz document_manager uuid4_hex file_bytes fs with
      | (Return (doc_id, page_count), fs') =>
          (Respond {| UploadResponse.document_id := doc_id;
                      UploadResponse.page_count := page_count |} [], fs')
      | (Raise e, fs') => (Uncaught e, fs')
      end.

(** [GET /preview] *)
Definition get_page_preview (document_id : string) (page_number : Z)
    (zoom : Q) (response : bool)
  : FS -> Outcome PagePreviewResponse.t * FS :=
  fun fs =>
    match get_page_preview fitz document_manager document_id
            page_number zoom fs with
    | (Return (preview_base64, width, height), fs') =>
        let data_url := "data:image/png;base64," +:+ preview_base64 in
        (Respond {| PagePreviewResponse.document_id := document_id;
                    PagePreviewResponse.page_number := page_number;
                    PagePreviewResponse.width := width;
                    PagePreviewResponse.height := height;
                    PagePreviewResponse.preview_data_url := data_url |}
           (no_store response), fs')
    | (Raise exc, fs') =>
        if isinstance_FileNotFoundError_or_ValueError exc
        then (HTTPException 404 (str exc), fs')
        else (Uncaught exc, fs')
    end.

(** The item of the response for one occurrence. *)
Definition image_item (img : PageImage.t) : PageImageMetadata.t :=
  let '(a, b, c, d) := PageImage.bbox img in
  {| PageImageMetadata.index := PageImage.index img;
     PageImageMetadata.bbox := [a; b; c; d];
     PageImageMetadata.width := PageImage.width img;
     PageImageMetadata.height := PageImage.height img;
     PageImageMetadata.preview_data_url :=
       "data:image/" +:+ PageImage.extension img +:+ ";base64,"
       +:+ PageImage.preview_base64 img |}.

(** [GET /images] *)
Definition list_page_images (document_id : string) (page_number : Z)
    (response : bool)
  : FS -> Outcome PageImagesResponse.t * FS :=
  fun fs =>
    match list_page_images fitz document_manager document_id
            page_number fs with
    | (Return (images, (width, height)), fs') =>
        (Respond {| PageImagesResponse.document_id := document_id;
                    PageImagesResponse.page_number := page_number;
                    PageImagesResponse.width := width;
                    PageImagesResponse.height := height;
                    PageImagesResponse.images := map image_item images |}
           (no_store response), fs')
    | (Raise exc, fs') =>
        if isinstance_FileNotFoundError_or_ValueError exc
        then (HTTPException 404 (str exc), fs')
        else (Uncaught exc, fs')
    end.

(** [POST /replace] *)
Definition replace_image (document_id : string) (page_number : Z)
    (image_index : Z) (file : UploadFile.t)
  : FS -> Outcome ReplaceImageResponse.t * FS :=
  fun fs =>
    if negb (content_type_in (UploadFile.content_type file)
               ["image/png"; "image/jpeg"; "image/jpg"; "image/webp"])
    then (HTTPException 400 "Only image uploads are supported", fs)
    else
      let new_bytes := UploadFile.content file in
      match replace_page_image fitz pil document_manager document_id
              page_number image_index new_bytes fs with
      | (Return _, fs') =>
          (Respond {| ReplaceImageResponse.document_id := document_id;
                      ReplaceImageResponse.page_number := page_number;
                      ReplaceImageResponse.image_index := image_index;
                      ReplaceImageResponse.status := "success" |} [], fs')
      | (Raise exc, fs') =>
          if isinstance_FileNotFoundError_or_ValueError exc
          then (HTTPException 404 (str exc), fs')
          else (Uncaught exc, fs')
      end.

(** [GET /document/{document_id}] *)
Definition download_document (document_id : string)
  : FS -> Outcome FileResponse.t * FS :=
  fun fs =>
    match get_pdf_file document_manager document_id fs with
    | (Return pdf_path, fs') =>
        (Respond {| FileResponse.path := pdf_path;
                    FileResponse.media_type := "application/pdf";
                    FileResponse.filename :=
                      "pdf-image-surgeon-" +:+ document_id +:+ ".pdf" |} [],
         fs')
    | (Raise exc, fs') =>
        if isinstance_FileNotFoundError exc
        then (HTTPException 404 (str exc), fs')
        else (Uncaught exc, fs')
    end.

(** [GET /health] *)
Definition health : list (string * string) := [("status", "ok")].

End Routes.

End main.

(** * Properties *)

(** ** The occurrence list *)

(** The occurrence that [append_rects] builds for one placement. *)
Definition occurrence (xref : Z) (image_info : ImageInfo.t) (preview : string)
    (counter : Z) (rect : Rect.t) : PageImage.t :=
  {| PageImage.index := counter;
     PageImage.bbox := (Rect.x0 rect, Rect.y0 rect, Rect.x1 rect, Rect.y1 rect);
     PageImage.width := default 0 (ImageInfo.width image_info);
     PageImage.height := default 0 (ImageInfo.height image_info);
     PageImage.xref := xref;
     PageImage.preview_base64 := preview;
     PageImage.extension := default "png" (ImageInfo.ext image_info) |}.

(** The occurrences of [l] carry the indices [c], [c+1], ... in order. *)
Definition indexed_from (c : Z) (l : list PageImage.t) : Prop :=
  forall (k : nat) img, l !! k = Some img -> PageImage.index img = c + Z.of_nat k.

(** The corners of a placement rectangle, as [bbox] stores them. *)
Definition corners (r : Rect.t) : Q * Q * Q * Q :=
  (Rect.x0 r, Rect.y0 r, Rect.x1 r, Rect.y1 r).



Definition has_rects (page : Page.t) (e : ImageEntry.t) : bool :=
  match Page.get_image_rects page (ImageEntry.xref e) with
  | Return (_ :: _) => true
  | _ => false
  end.

(** What [list_page_images] computes from the opened document. *)
Definition listing (doc : Document.t) (page_number : Z)
  : Result (list PageImage.t * (Q * Q)) :=
  if negb (valid_page doc page_number) then
    Raise (ValueError "Invalid page number")
  else
    match Document.load_page doc (page_number - 1) with
    | Raise e => Raise e
    | Return page =>
        match index_entries doc page (Page.get_images page) [] 0 with
        | Raise e => Raise e
        | Return images =>
            Return (images, (Rect.width (Page.rect page),
                             Rect.height (Page.rect page)))
        end
    end.


Definition InvalidPageError : exn := ValueError "Invalid page number".
Definition ImageIndexNotFoundError : exn :=
  ValueError "Image index not found on page".

(** No occurrence of the list carries the index. *)
Definition index_absent (images : list PageImage.t) (i : Z) : Prop :=
  forall img, img ∈ images -> PageImage.index img <> i.

(** The identifier contains a slash. *)
Fixpoint has_slash (s : string) : bool :=
  match s with
  | EmptyString => false
  | String c s' => Ascii.eqb c "/"%char || has_slash s'
  end.

(** The calls that a client makes on the manager, and the store after
    each. *)
Inductive Call : Type :=
  | call_save_pdf (uuid4_hex : string) (file_bytes : bytes)
  | call_get_pdf_file (doc_id : string)
  | call_get_page_preview (doc_id : string) (page_number : Z) (zoom : Q)
  | call_list_page_images (doc_id : string) (page_number : Z)
  | call_replace_page_image (doc_id : string) (page_number image_index : Z)
      (new_image_bytes : bytes).

Definition run_call (fitz : Fitz) (pil : Pillow) (self : DocumentManager)
    (c : Call) (fs : FS) : FS :=
  match c with
  | call_save_pdf uuid4_hex file_bytes =>
      (save_pdf fitz self uuid4_hex file_bytes fs).2
  | call_get_pdf_file doc_id => (get_pdf_file self doc_id fs).2
  | call_get_page_preview doc_id page_number zoom =>
      (get_page_preview fitz self doc_id page_number zoom fs).2
  | call_list_page_images doc_id page_number =>
      (list_page_images fitz self doc_id page_number fs).2
  | call_replace_page_image doc_id page_number image_index raw =>
      (replace_page_image fitz pil self doc_id page_number image_index raw fs).2
  end.

Definition run_calls (fitz : Fitz) (pil : Pillow) (self : DocumentManager)
    (calls : list Call) (fs : FS) : FS :=
  foldl (fun fs c => run_call fitz pil self c fs) fs calls.

(** A later upload that draws an identifier of its own does not write the
    file at [path]. *)
Definition upload_elsewhere (self : DocumentManager) (path : Path) (c : Call)
  : Prop :=
  match c with
  | call_save_pdf uuid4_hex _ => _document_path self uuid4_hex <> path
  | _ => True
  end.

(** The resource and the box of an occurrence. *)
Definition placement_of (img : PageImage.t) : Z * (Q * Q * Q * Q) :=
  (PageImage.xref img, PageImage.bbox img).

(** The placements that the engine reports for a resource of the page, in
    its order. *)
Definition placements (page : Page.t) (e : ImageEntry.t)
  : list (Z * (Q * Q * Q * Q)) :=
  match Page.get_image_rects page (ImageEntry.xref e) with
  | Return rects => map (fun r => (ImageEntry.xref e, corners r)) rects
  | Raise _ => []
  end.

(** The loop comes to [doc.extract_image] for the resource: it is placed
    and the engine takes it for an image. *)
Definition reaches_extraction (doc : Document.t) (page : Page.t)
    (e : ImageEntry.t) : bool :=
  has_rects page e && Document.xref_is_image doc (ImageEntry.xref e).

(** The loop passes the resource without an error: the engine reports
    its placement rectangles, and its extraction, if the loop comes to it,
    returns or fails with what [except RuntimeError] catches. *)
Definition passes (doc : Document.t) (page : Page.t) (e : ImageEntry.t)
  : Prop :=
  (exists rects,
      Page.get_image_rects page (ImageEntry.xref e) = Return rects)
  /\ (forall err,
        reaches_extraction doc page e = true ->
        Document.extract_image doc (ImageEntry.xref e) = Raise err ->
        isinstance_RuntimeError err = true).

(** The error [err] is one that stops the loop at the resource: raised by
    [page.get_image_rects], or raised by [doc.extract_image] when the loop
    comes to it and not a [RuntimeError]. *)
Definition stops_with (doc : Document.t) (page : Page.t) (e : ImageEntry.t)
    (err : exn) : Prop :=
  Page.get_image_rects page (ImageEntry.xref e) = Raise err
  \/ (reaches_extraction doc page e = true
      /\ Document.extract_image doc (ImageEntry.xref e) = Raise err
      /\ isinstance_RuntimeError err = false).

(** The resource is listed: it is placed, an image, and its extraction
    returns a dict with the key ["image"]. *)
Definition listed (doc : Document.t) (page : Page.t) (e : ImageEntry.t)
  : bool :=
  reaches_extraction doc page e
  && match Document.extract_image doc (ImageEntry.xref e) with
     | Return (Dict info) =>
         match ImageInfo.image info with Some _ => true | None => false end
     | _ => false
     end.

(** The occurrence carries what the engine extracts for its resource, with
    the defaults of the code for absent keys. *)
Definition attributes_of_resource (doc : Document.t) (img : PageImage.t)
  : Prop :=
  Document.xref_is_image doc (PageImage.xref img) = true
  /\ exists info image,
       Document.extract_image doc (PageImage.xref img) = Return (Dict info)
       /\ ImageInfo.image info = Some image
       /\ PageImage.preview_base64 img = base64.b64encode image
       /\ PageImage.width img = default 0 (ImageInfo.width info)
       /\ PageImage.height img = default 0 (ImageInfo.height info)
       /\ PageImage.extension img = default "png" (ImageInfo.ext info).



(** The name ends in [.pdf]. *)
Definition ends_with_pdf (name : string) : Prop :=
  exists stem, name = stem +:+ ".pdf".

(** The characters of a string. *)
Fixpoint chars (s : string) : list ascii :=
  match s with
  | EmptyString => []
  | String c s' => c :: chars s'
  end.

(** The text is over the base64 alphabet and the padding sign. *)
Definition base64_text (s : string) : Prop :=
  Forall (fun ch => ch ∈ chars base64.alphabet \/ ch = "="%char) (chars s).

(** One turn of the outer loop of [list_page_images]: what it makes of
    the list and the counter, or the error it stops with. *)
Definition entry_step (doc : Document.t) (page : Page.t) (e : ImageEntry.t)
    (images : list PageImage.t) (counter : Z)
  : Result (list PageImage.t * Z) :=
  let xref := ImageEntry.xref e in
  match Page.get_image_rects page xref with
  | Raise err => Raise err
  | Return [] => Return (images, counter)
  | Return ((_ :: _) as rects) =>
      if negb (Document.xref_is_image doc xref) then Return (images, counter)
      else
        match Document.extract_image doc xref with
        | Raise err =>
            if isinstance_RuntimeError err then Return (images, counter)
            else Raise err
        | Return NotADict => Return (images, counter)
        | Return (Dict image_info) =>
            match ImageInfo.image image_info with
            | None => Return (images, counter)
            | Some image =>
                Return (append_rects xref image_info (base64.b64encode image)
                          rects images counter)
            end
        end
  end.

(** ** The occurrence list: lemmas *)

Lemma indexed_from_nil c : indexed_from c [].
Proof. intros k img H. by rewrite lookup_nil in H. Qed.

Lemma indexed_from_snoc c l img :
  indexed_from c l ->
  PageImage.index img = c + Z.of_nat (length l) ->
  indexed_from c (l ++ [img]).
Proof.
  intros Hl Himg k x Hk.
  destruct (decide (k < length l)%nat) as [Hlt|Hge].
  - rewrite lookup_app_l in Hk by done. by apply Hl.
  - rewrite lookup_app_r in Hk by lia.
    destruct (k - length l)%nat as [|n] eqn:E; simpl in Hk; [|done].
    inversion Hk; subst x. rewrite Himg. f_equal. lia.
Qed.

Lemma append_rects_nil xref info pv images c :
  append_rects xref info pv [] images c = (images, c).
Proof. reflexivity. Qed.

Lemma append_rects_fst_snoc xref info pv rects images c r :
  append_rects xref info pv (r :: rects) images c
  = append_rects xref info pv rects
      (images ++ [occurrence xref info pv c r]) (c + 1).
Proof. reflexivity. Qed.

#[local] Arguments append_rects : simpl never.

Lemma append_rects_indexed xref info pv rects : forall images c out c',
  indexed_from 0 images -> c = Z.of_nat (length images) ->
  append_rects xref info pv rects images c = (out, c') ->
  indexed_from 0 out /\ c' = Z.of_nat (length out).
Proof.
  induction rects as [|r rects IH]; intros images c out c' Hidx Hc Heq.
  - rewrite append_rects_nil in Heq. inversion Heq; subst. done.
  - rewrite append_rects_fst_snoc in Heq.
    eapply IH; [| |exact Heq].
    + apply indexed_from_snoc; [done|]. simpl. lia.
    + rewrite length_app. simpl. lia.
Qed.

Lemma append_rects_Forall (P : PageImage.t -> Prop) xref info pv rects :
  forall images c,
  Forall P images ->
  (forall r k, r ∈ rects -> P (occurrence xref info pv k r)) ->
  Forall P (append_rects xref info pv rects images c).1.
Proof.
  induction rects as [|r rects IH]; intros images c Himg Hnew; [done|].
  rewrite append_rects_fst_snoc. apply IH.
  - apply Forall_app. split; [done|]. constructor; [|done].
    apply Hnew. by left.
  - intros r' k Hr'. apply Hnew. by right.
Qed.

Lemma index_entries_cons doc page e entries images c :
  index_entries doc page (e :: entries) images c
  = match entry_step doc page e images c with
    | Return (images', c') => index_entries doc page entries images' c'
    | Raise err => Raise err
    end.
Proof.
  simpl. unfold entry_step.
  destruct (Page.get_image_rects page (ImageEntry.xref e)) as [[|r rs]|err];
    [done| |done].
  destruct (Document.xref_is_image doc (ImageEntry.xref e)); simpl; [|done].
  destruct (Document.extract_image doc (ImageEntry.xref e)) as [[|info]|err].
  - done.
  - destruct (ImageInfo.image info); [|done].
    by destruct (append_rects _ _ _ _ _ _).
  - by destruct (isinstance_RuntimeError err).
Qed.

(** The three ways of a turn: it stops with an error; it passes and lists
    nothing; it passes and lists the placements of the resource. *)
Lemma entry_step_cases doc page e images c :
  (exists err, stops_with doc page e err
               /\ entry_step doc page e images c = Raise err)
  \/ (passes doc page e /\ listed doc page e = false
      /\ entry_step doc page e images c = Return (images, c))
  \/ (passes doc page e /\ listed doc page e = true
      /\ exists rects info image,
           Page.get_image_rects page (ImageEntry.xref e) = Return rects
           /\ Document.xref_is_image doc (ImageEntry.xref e) = true
           /\ Document.extract_image doc (ImageEntry.xref e)
              = Return (Dict info)
           /\ ImageInfo.image info = Some image
           /\ entry_step doc page e images c
              = Return (append_rects (ImageEntry.xref e) info
                          (base64.b64encode image) rects images c)).
Proof.
  unfold entry_step, passes, stops_with, listed, reaches_extraction,
    has_rects.
  destruct (Page.get_image_rects page (ImageEntry.xref e))
    as [[|r rs]|rerr] eqn:Er.
  - right; left. split; [|done]. split; [by eexists|done].
  - destruct (Document.xref_is_image doc (ImageEntry.xref e)) eqn:Ex; simpl.
    + destruct (Document.extract_image doc (ImageEntry.xref e))
        as [[|info]|err] eqn:Ee.
      * right; left. split; [|done]. split; [by eexists|done].
      * destruct (ImageInfo.image info) as [image|] eqn:Ei.
        -- right; right. split; [split; [by eexists|done]|].
           split; [done|]. by exists (r :: rs), info, image.
        -- right; left. split; [|done]. split; [by eexists|done].
      * destruct (isinstance_RuntimeError err) eqn:Ei.
        -- right; left. split; [|done]. split; [by eexists|].
           intros err0 _ H. by inversion H; subst.
        -- left. exists err. split; [|done]. by right.
    + right; left. split; [|done]. split; [by eexists|done].
  - left. exists rerr. split; [by left|done].
Qed.


Lemma index_entries_indexed doc page entries : forall images c out,
  indexed_from 0 images -> c = Z.of_nat (length images) ->
  index_entries doc page entries images c = Return out ->
  indexed_from 0 out.
Proof.
  induction entries as [|e entries IH]; intros images c out Hidx Hc Heq.
  - simpl in Heq. by inversion Heq; subst.
  - rewrite index_entries_cons in Heq.
    destruct (entry_step_cases doc page e images c)
      as [(err & _ & Hs)|[(_ & _ & Hs)|(_ & _ & rects & info & image
                                        & _ & _ & _ & _ & Hs)]];
      rewrite Hs in Heq; [done|by eapply IH|].
    destruct (append_rects _ _ _ _ _ _) as [images' c'] eqn:Ea.
    destruct (append_rects_indexed _ _ _ _ _ _ _ _ Hidx Hc Ea) as [Hidx' Hc'].
    by eapply IH.
Qed.

Lemma index_entries_Forall (P : PageImage.t -> Prop) doc page entries :
  forall images c out,
  Forall P images ->
  (forall e rects info image k r, e ∈ entries ->
     Page.get_image_rects page (ImageEntry.xref e) = Return rects ->
     Document.xref_is_image doc (ImageEntry.xref e) = true ->
     Document.extract_image doc (ImageEntry.xref e) = Return (Dict info) ->
     ImageInfo.image info = Some image ->
     r ∈ rects ->
     P (occurrence (ImageEntry.xref e) info (base64.b64encode image) k r)) ->
  index_entries doc page entries images c = Return out ->
  Forall P out.
Proof.
  induction entries as [|e entries IH]; intros images c out Himg Hnew Heq.
  - simpl in Heq. by inversion Heq; subst.
  - assert (Hnew' : forall e0 rects info image k r, e0 ∈ entries ->
              Page.get_image_rects page (ImageEntry.xref e0) = Return rects ->
              Document.xref_is_image doc (ImageEntry.xref e0) = true ->
              Document.extract_image doc (ImageEntry.xref e0)
              = Return (Dict info) ->
              ImageInfo.image info = Some image ->
              r ∈ rects ->
              P (occurrence (ImageEntry.xref e0) info
                   (base64.b64encode image) k r)).
    { intros e0 rects info image k r He0. apply Hnew. by right. }
    rewrite index_entries_cons in Heq.
    destruct (entry_step_cases doc page e images c)
      as [(err & _ & Hs)|[(_ & _ & Hs)|(_ & _ & rects & info & image
                                        & Hr & Hx & He & Hi & Hs)]];
      rewrite Hs in Heq; [done|by eapply IH|].
    destruct (append_rects _ _ _ _ _ _) as [images' c'] eqn:Ea.
    eapply IH; [|done|exact Heq].
    replace images' with (append_rects (ImageEntry.xref e) info
      (base64.b64encode image) rects images c).1 by (by rewrite Ea).
    apply append_rects_Forall; [done|].
    intros r' k Hr'. eapply Hnew; [by left|done..].
Qed.


(** When the loop stops, it stops with the error of one of its turns. *)
Lemma index_entries_Raise doc page entries : forall images c err,
  index_entries doc page entries images c = Raise err ->
  exists e, e ∈ entries /\ stops_with doc page e err.
Proof.
  induction entries as [|e entries IH]; intros images c err Heq; [done|].
  assert (Htail : forall images' c',
            index_entries doc page entries images' c' = Raise err ->
            exists e0, e0 ∈ e :: entries /\ stops_with doc page e0 err).
  { intros images' c' H. destruct (IH _ _ _ H) as (e0 & He0 & Hrest).
    exists e0. split; [by right|done]. }
  rewrite index_entries_cons in Heq.
  destruct (entry_step_cases doc page e images c)
    as [(err0 & Hstop & Hs)|[(_ & _ & Hs)|(_ & _ & rects & info & image
                                           & _ & _ & _ & _ & Hs)]];
    rewrite Hs in Heq.
  - inversion Heq; subst err0. exists e. split; [by left|done].
  - by eapply Htail.
  - destruct (append_rects _ _ _ _ _ _). by eapply Htail.
Qed.




Lemma append_rects_placements xref info pv rects : forall images c,
  map placement_of (append_rects xref info pv rects images c).1
  = map placement_of images ++ map (fun r => (xref, corners r)) rects.
Proof.
  induction rects as [|r rects IH]; intros images c.
  - rewrite append_rects_nil. simpl. by rewrite app_nil_r.
  - rewrite append_rects_fst_snoc, (IH _ (c + 1)), map_app. simpl.
    by rewrite <- app_assoc.
Qed.

Lemma index_entries_placements doc page entries : forall images c out,
  index_entries doc page entries images c = Return out ->
  map placement_of out
  = map placement_of images
    ++ flat_map (placements page) (List.filter (listed doc page) entries).
Proof.
  induction entries as [|e entries IH]; intros images c out Heq.
  - simpl in Heq. inversion Heq; subst. simpl. by rewrite app_nil_r.
  - rewrite index_entries_cons in Heq. simpl.
    destruct (entry_step_cases doc page e images c)
      as [(err & _ & Hs)|[(_ & Hl & Hs)|(_ & Hl & rects & info & image
                                         & Hr & _ & _ & _ & Hs)]];
      rewrite Hs in Heq; rewrite ?Hl; [done|by eapply IH|].
    destruct (append_rects _ _ _ _ _ _) as [images' c'] eqn:Ea.
    rewrite (IH _ _ _ Heq).
    replace images' with (append_rects (ImageEntry.xref e) info
      (base64.b64encode image) rects images c).1 by (by rewrite Ea).
    rewrite append_rects_placements. simpl.
    unfold placements at 2. rewrite Hr. by rewrite <- app_assoc.
Qed.

Lemma index_entries_attributes doc page entries : forall images c out,
  Forall (attributes_of_resource doc) images ->
  index_entries doc page entries images c = Return out ->
  Forall (attributes_of_resource doc) out.
Proof.
  intros images c out Himg Heq.
  eapply index_entries_Forall; [exact Himg| |exact Heq].
  intros e rects info image k r _ _ Hx He Hi _.
  split; [exact Hx|]. exists info, image. by simpl.
Qed.

Lemma find_indexed_from (t : Z) l : forall c,
  indexed_from c l -> c <= t < c + Z.of_nat (length l) ->
  find_index l t = l !! Z.to_nat (t - c).
Proof.
  unfold find_index.
  induction l as [|img l IH]; intros c Hidx Hrange; [simpl in Hrange; lia|].
  simpl. pose proof (Hidx 0%nat img eq_refl) as H0. simpl in H0.
  destruct (PageImage.index img =? t) eqn:E.
  - apply Z.eqb_eq in E. replace (t - c) with 0 by lia. done.
  - apply Z.eqb_neq in E. rewrite (IH (c + 1)).
    + replace (Z.to_nat (t - c)) with (S (Z.to_nat (t - (c + 1)))) by lia. done.
    + intros k x Hk. rewrite (Hidx (S k) x Hk). lia.
    + simpl in Hrange. lia.
Qed.

Lemma find_indexed_from_None (t : Z) l c :
  indexed_from c l -> (t < c \/ c + Z.of_nat (length l) <= t) ->
  find_index l t = None.
Proof.
  intros Hidx Hout. unfold find_index.
  destruct (List.find _ l) as [img|] eqn:E; [|done].
  apply List.find_some in E as [Hin Heq].
  apply list_elem_of_In, list_elem_of_lookup in Hin as [k Hk].
  pose proof (lookup_lt_Some _ _ _ Hk).
  apply Hidx in Hk. apply Z.eqb_eq in Heq. lia.
Qed.

(** ** The methods, step by step *)

Section Methods.

Variable fitz : Fitz.
Variable self : DocumentManager.

Lemma _ensure_document_found doc_id fs data :
  fs !! _document_path self doc_id = Some data ->
  _ensure_document self doc_id fs = (Return (_document_path self doc_id), fs).
Proof.
  intros H. unfold _ensure_document, exists_, mbind, M_bind.
  by rewrite H.
Qed.

Lemma _ensure_document_missing doc_id fs :
  fs !! _document_path self doc_id = None ->
  name_too_long (_document_path self doc_id) = false ->
  _ensure_document self doc_id fs
  = (Raise (FileNotFoundError "Document not found"), fs).
Proof.
  intros H Hn. unfold _ensure_document, exists_, mbind, M_bind.
  by rewrite H, Hn.
Qed.

Lemma _ensure_document_too_long doc_id fs :
  fs !! _document_path self doc_id = None ->
  name_too_long (_document_path self doc_id) = true ->
  _ensure_document self doc_id fs
  = (Raise (OSError "File name too long"), fs).
Proof.
  intros H Hn. unfold _ensure_document, exists_, mbind, M_bind.
  by rewrite H, Hn.
Qed.

(** Without a stored file, [_ensure_document] raises. *)
Lemma _ensure_document_absent doc_id fs :
  fs !! _document_path self doc_id = None ->
  exists e, _ensure_document self doc_id fs = (Raise e, fs).
Proof.
  intros H.
  destruct (name_too_long (_document_path self doc_id)) eqn:Hn.
  - eexists. by apply _ensure_document_too_long.
  - eexists. by apply _ensure_document_missing.
Qed.



Lemma list_page_images_absent doc_id page_number fs :
  fs !! _document_path self doc_id = None ->
  exists e, list_page_images fitz self doc_id page_number fs = (Raise e, fs).
Proof.
  intros H. destruct (_ensure_document_absent doc_id fs H) as [e He].
  exists e. unfold list_page_images, mbind, M_bind. by rewrite He.
Qed.

Lemma list_page_images_unreadable doc_id page_number fs data e :
  fs !! _document_path self doc_id = Some data ->
  fitz_open fitz data = Raise e ->
  list_page_images fitz self doc_id page_number fs = (Raise e, fs).
Proof.
  intros H Ho. unfold list_page_images, mbind, M_bind.
  rewrite (_ensure_document_found _ _ data) by done.
  unfold fitz_open_path, read_bytes, mbind, M_bind, lift. by rewrite H, Ho.
Qed.

Lemma list_page_images_stored doc_id page_number fs data doc :
  fs !! _document_path self doc_id = Some data ->
  fitz_open fitz data = Return doc ->
  list_page_images fitz self doc_id page_number fs
  = (listing doc page_number, fs).
Proof.
  intros H Ho. unfold list_page_images, listing, mbind, M_bind.
  rewrite (_ensure_document_found _ _ data) by done.
  unfold fitz_open_path, read_bytes, mbind, M_bind, lift. rewrite H, Ho.
  destruct (negb (valid_page doc page_number)); [done|].
  destruct (Document.load_page doc (page_number - 1)) as [page|e]; [|done].
  by destruct (index_entries doc page (Page.get_images page) [] 0).
Qed.

(** Listing reads the store and never writes it. *)
Lemma list_page_images_fs doc_id page_number fs :
  (list_page_images fitz self doc_id page_number fs).2 = fs.
Proof.
  destruct (fs !! _document_path self doc_id) as [data|] eqn:H.
  - destruct (fitz_open fitz data) as [doc|e] eqn:Ho.
    + by erewrite list_page_images_stored.
    + by erewrite list_page_images_unreadable.
  - by destruct (list_page_images_absent doc_id page_number fs H) as [e ->].
Qed.

(** Rendering a preview reads the store and never writes it. *)
Lemma get_page_preview_fs doc_id page_number zoom fs :
  (get_page_preview fitz self doc_id page_number zoom fs).2 = fs.
Proof.
  unfold get_page_preview, _ensure_document, exists_, fitz_open_path,
    read_bytes, lift, raise, mbind, mret, M_bind, M_ret.
  destruct (fs !! _document_path self doc_id) as [data|] eqn:H; simpl;
    [|by destruct (name_too_long _)].
  rewrite H.
  destruct (fitz_open fitz data) as [doc|e]; [|done].
  destruct (negb (valid_page doc page_number)); [done|].
  destruct (Document.load_page doc (page_number - 1)) as [page|e]; [|done].
  by destruct (get_pixmap_png fitz page zoom zoom false).
Qed.

Lemma valid_page_true doc page_number :
  valid_page doc page_number = true <->
  1 <= page_number <= Document.page_count doc.
Proof. unfold valid_page. rewrite andb_true_iff, !Z.leb_le. done. Qed.

Lemma load_page_valid doc page_number :
  1 <= page_number <= Document.page_count doc ->
  exists page,
    Document.pages doc !! Z.to_nat (page_number - 1) = Some page
    /\ Document.load_page doc (page_number - 1) = Return page.
Proof.
  intros H. unfold Document.page_count in H. unfold Document.load_page.
  destruct (lookup_lt_is_Some_2 (Document.pages doc)
              (Z.to_nat (page_number - 1))) as [page Hp]; [lia|].
  exists page. by rewrite Hp.
Qed.

(** A listing that returns was computed by the loop on a page of the
    stored document. *)
Lemma list_page_images_Return doc_id page_number fs images size fs' :
  list_page_images fitz self doc_id page_number fs
  = (Return (images, size), fs') ->
  exists data doc page,
    fs !! _document_path self doc_id = Some data
    /\ fitz_open fitz data = Return doc
    /\ 1 <= page_number <= Document.page_count doc
    /\ Document.pages doc !! Z.to_nat (page_number - 1) = Some page
    /\ index_entries doc page (Page.get_images page) [] 0 = Return images
    /\ size = (Rect.width (Page.rect page), Rect.height (Page.rect page))
    /\ fs' = fs.
Proof.
  intros Heq.
  destruct (fs !! _document_path self doc_id) as [data|] eqn:H.
  2:{ destruct (list_page_images_absent doc_id page_number fs H) as [e He].
      by rewrite He in Heq. }
  destruct (fitz_open fitz data) as [doc|e] eqn:Ho;
    [|by erewrite list_page_images_unreadable in Heq].
  erewrite list_page_images_stored in Heq by done.
  unfold listing in Heq.
  destruct (valid_page doc page_number) eqn:Hv; simpl in Heq; [|done].
  apply valid_page_true in Hv.
  destruct (load_page_valid doc page_number Hv) as (page & Hp & Hl).
  rewrite Hl in Heq.
  destruct (index_entries doc page (Page.get_images page) [] 0)
    as [out|e] eqn:Hi; [|done].
  inversion Heq; subst. by exists data, doc, page.
Qed.

End Methods.



(** ** The fixture *)

(** The document of the fixture is stored and lists as expected. *)
Lemma Fixture_store_doc :
  Fixture.store !! _document_path Fixture.manager "doc"
  = Some Fixture.pdf_bytes.
Proof. unfold Fixture.store. apply lookup_singleton_eq. Qed.


Lemma Fixture_listing_page1 :
  list_page_images Fixture.engine Fixture.manager "doc" 1 Fixture.store
  = (Return (Fixture.page1_images, (612%Q, 792%Q)), Fixture.store).
Proof.
  rewrite (list_page_images_stored Fixture.engine Fixture.manager "doc" 1
             Fixture.store Fixture.pdf_bytes Fixture.document
             Fixture_store_doc eq_refl).
  f_equal.
Qed.

(** ** Indices are positions *)

(** C8. In every list that [list_page_images] returns, the occurrence at
    position [k] carries index [k]; hence the search of
    [replace_page_image] for the occurrence whose index equals
    [target_index] is the positional lookup [images[target_index]] whenever
    [0 <= target_index < len(images)]. *)
Theorem list_page_images_index_is_position :
  forall fitz self doc_id page_number fs images size fs',
    list_page_images fitz self doc_id page_number fs
    = (Return (images, size), fs') ->
    (forall (k : nat) img,
        images !! k = Some img -> PageImage.index img = Z.of_nat k)
    /\ (forall target_index,
          0 <= target_index < Z.of_nat (length images) ->
          find_index images target_index = images !! Z.to_nat target_index).
Proof.
  intros fitz self doc_id page_number fs images size fs' Heq.
  apply list_page_images_Return in Heq
    as (data & doc & page & _ & _ & _ & _ & Hi & _ & _).
  apply index_entries_indexed in Hi; [|apply indexed_from_nil|done].
  split.
  - intros k img Hk. by rewrite (Hi k img Hk).
  - intros t Ht. rewrite (find_indexed_from t images 0 Hi) by lia.
    by rewrite Z.sub_0_r.
Qed.

Lemma list_page_images_index_is_position_witness :
  (forall (k : nat) img,
      Fixture.page1_images !! k = Some img -> PageImage.index img = Z.of_nat k)
  /\ (forall target_index,
        0 <= target_index < Z.of_nat (length Fixture.page1_images) ->
        find_index Fixture.page1_images target_index
        = Fixture.page1_images !! Z.to_nat target_index).
Proof.
  apply (list_page_images_index_is_position
           Fixture.engine Fixture.manager "doc" 1 Fixture.store
           Fixture.page1_images (612%Q, 792%Q) Fixture.store).
  exact Fixture_listing_page1.
Defined.

(** ** The listing of a page *)






(** ** The failures of replacement *)

Section Replace.

Variable fitz : Fitz.
Variable pil : Pillow.
Variable self : DocumentManager.

Lemma find_index_absent images i :
  index_absent images i -> find_index images i = None.
Proof.
  intros Habs. unfold find_index.
  destruct (List.find _ images) as [img|] eqn:E; [|done].
  apply List.find_some in E as [Hin Heq].
  apply list_elem_of_In in Hin. apply Z.eqb_eq in Heq.
  by destruct (Habs img Hin).
Qed.



Lemma replace_page_image_absent doc_id page_number image_index raw fs :
  fs !! _document_path self doc_id = None ->
  exists e,
    replace_page_image fitz pil self doc_id page_number image_index raw fs
    = (Raise e, fs).
Proof.
  intros H. destruct (_ensure_document_absent self doc_id fs H) as [e He].
  exists e. unfold replace_page_image, mbind, M_bind. by rewrite He.
Qed.

Lemma replace_page_image_not_listed doc_id page_number image_index raw fs e :
  list_page_images fitz self doc_id page_number fs = (Raise e, fs) ->
  replace_page_image fitz pil self doc_id page_number image_index raw fs
  = (Raise e, fs).
Proof.
  intros Hl.
  destruct (fs !! _document_path self doc_id) as [data|] eqn:H.
  - unfold replace_page_image, mbind, M_bind.
    rewrite (_ensure_document_found _ _ _ data) by done.
    fold (@mbind M _). unfold mbind, M_bind. by rewrite Hl.
  - destruct (_ensure_document_absent self doc_id fs H) as [e0 He0].
    unfold list_page_images, mbind, M_bind in Hl. rewrite He0 in Hl.
    inversion Hl; subst e0.
    unfold replace_page_image, mbind, M_bind. by rewrite He0.
Qed.

(** Once the page is listed, replacement goes on from the search. *)
Lemma replace_page_image_listed doc_id page_number image_index raw fs
    images size :
  list_page_images fitz self doc_id page_number fs
  = (Return (images, size), fs) ->
  replace_page_image fitz pil self doc_id page_number image_index raw fs
  = match find_index images image_index with
    | None => (Raise ImageIndexNotFoundError, fs)
    | Some target =>
        match _pixmap_from_bytes fitz pil raw with
        | Raise e => (Raise e, fs)
        | Return pix =>
            (doc ← fitz_open_path fitz (_document_path self doc_id);
             page ← lift (Document.load_page doc (page_number - 1));
             doc ← lift (replace_image fitz doc (page_number - 1)
                           (PageImage.xref target) pix);
             Document_save fitz doc (_document_path self doc_id)
               true PDF_ENCRYPT_KEEP) fs
        end
    end.
Proof.
  intros Hl.
  destruct (list_page_images_Return _ _ _ _ _ _ _ _ Hl)
    as (data & _ & _ & H & _).
  unfold replace_page_image. unfold mbind at 1, M_bind at 1.
  rewrite (_ensure_document_found _ _ _ data) by done.
  unfold mbind at 1, M_bind at 1. rewrite Hl.
  destruct (find_index images image_index) as [target|]; [|done].
  unfold mbind at 1, M_bind at 1, lift at 1.
  by destruct (_pixmap_from_bytes fitz pil raw).
Qed.

Lemma replace_page_image_index_absent doc_id page_number image_index raw fs
    images size :
  list_page_images fitz self doc_id page_number fs
  = (Return (images, size), fs) ->
  index_absent images image_index ->
  replace_page_image fitz pil self doc_id page_number image_index raw fs
  = (Raise ImageIndexNotFoundError, fs).
Proof.
  intros Hl Habs. rewrite (replace_page_image_listed _ _ _ _ _ _ _ Hl).
  by rewrite find_index_absent.
Qed.

Lemma listing_invalid_page doc page_number :
  ~ 1 <= page_number <= Document.page_count doc ->
  listing doc page_number = Raise InvalidPageError.
Proof.
  intros H. unfold listing.
  destruct (valid_page doc page_number) eqn:Hv; [|done].
  by apply valid_page_true in Hv.
Qed.

End Replace.

Lemma listed_indexed fitz self doc_id page_number fs images size fs' :
  list_page_images fitz self doc_id page_number fs
  = (Return (images, size), fs') ->
  indexed_from 0 images.
Proof.
  intros Heq.
  apply list_page_images_Return in Heq
    as (data & doc & page & _ & _ & _ & _ & Hi & _ & _).
  eapply index_entries_indexed; [apply indexed_from_nil|done|exact Hi].
Qed.

Lemma indexed_absent images i :
  indexed_from 0 images -> i < 0 \/ Z.of_nat (length images) <= i ->
  index_absent images i.
Proof.
  intros Hidx Hout img Hin Heq.
  apply list_elem_of_lookup in Hin as [k Hk].
  pose proof (lookup_lt_Some _ _ _ Hk). apply Hidx in Hk. lia.
Qed.

(** C4. For a stored document, [list_page_images] with page number 0 or
    [page_count + 1] fails with [InvalidPageError]; [replace_page_image]
    on a page that lists fails with [ImageIndexNotFoundError] for every
    index that no occurrence of the fresh list carries: for -1 always, and
    for 999999 on every page with at most 999999 occurrences. The store is
    left as it was. *)
Theorem boundary_failures :
  forall fitz pil self doc_id fs data doc,
    fs !! _document_path self doc_id = Some data ->
    fitz_open fitz data = Return doc ->
    list_page_images fitz self doc_id 0 fs = (Raise InvalidPageError, fs)
    /\ list_page_images fitz self doc_id (Document.page_count doc + 1) fs
       = (Raise InvalidPageError, fs)
    /\ (forall page_number images size raw,
          list_page_images fitz self doc_id page_number fs
          = (Return (images, size), fs) ->
          (forall target_index, index_absent images target_index ->
             replace_page_image fitz pil self doc_id page_number
               target_index raw fs
             = (Raise ImageIndexNotFoundError, fs))
          /\ replace_page_image fitz pil self doc_id page_number (-1) raw fs
             = (Raise ImageIndexNotFoundError, fs)
          /\ (Z.of_nat (length images) <= 999999 ->
              replace_page_image fitz pil self doc_id page_number 999999 raw fs
              = (Raise ImageIndexNotFoundError, fs))).
Proof.
  intros fitz pil self doc_id fs data doc Hfs Hopen.
  split; [|split].
  - erewrite list_page_images_stored by done.
    rewrite listing_invalid_page; [done|lia].
  - erewrite list_page_images_stored by done.
    rewrite listing_invalid_page; [done|lia].
  - intros page_number images size raw Hl.
    pose proof (listed_indexed _ _ _ _ _ _ _ _ Hl) as Hidx.
    split; [|split].
    + intros t Habs. by eapply replace_page_image_index_absent.
    + eapply replace_page_image_index_absent; [done|].
      apply indexed_absent; [done|lia].
    + intros Hlen. eapply replace_page_image_index_absent; [done|].
      apply indexed_absent; [done|lia].
Qed.

Lemma boundary_failures_witness :
  list_page_images Fixture.engine Fixture.manager "doc" 0 Fixture.store
  = (Raise InvalidPageError, Fixture.store)
  /\ list_page_images Fixture.engine Fixture.manager "doc"
       (Document.page_count Fixture.document + 1) Fixture.store
     = (Raise InvalidPageError, Fixture.store)
  /\ replace_page_image Fixture.engine Fixture.decoder Fixture.manager
       "doc" 1 (-1) (list_byte_of_string "Rabcdef") Fixture.store
     = (Raise ImageIndexNotFoundError, Fixture.store)
  /\ replace_page_image Fixture.engine Fixture.decoder Fixture.manager
       "doc" 1 999999 (list_byte_of_string "Rabcdef") Fixture.store
     = (Raise ImageIndexNotFoundError, Fixture.store).
Proof.
  destruct (boundary_failures Fixture.engine Fixture.decoder Fixture.manager
              "doc" Fixture.store Fixture.pdf_bytes Fixture.document)
    as (H0 & H3 & Hr); [exact Fixture_store_doc|reflexivity|].
  destruct (Hr 1 Fixture.page1_images (612%Q, 792%Q)
              (list_byte_of_string "Rabcdef"))
    as (_ & Hneg & Hbig); [exact Fixture_listing_page1|].
  split; [exact H0|]. split; [exact H3|]. split; [exact Hneg|].
  apply Hbig. vm_compute. discriminate.
Defined.





(** ** A replacement that does not decode *)

(** C2. For a stored document, a page that lists and an index within the
    list: if [Image.open] does not recognise the replacement bytes, then
    [replace_page_image] fails with the decoder's error and the store,
    hence the stored document, is unchanged: decoding comes before the
    document is opened for the change. *)
Theorem replace_page_image_decode_failure :
  forall fitz pil self doc_id page_number image_index raw fs images size e,
    list_page_images fitz self doc_id page_number fs
    = (Return (images, size), fs) ->
    0 <= image_index < Z.of_nat (length images) ->
    Image_open pil raw = Raise e ->
    replace_page_image fitz pil self doc_id page_number image_index raw fs
    = (Raise e, fs).
Proof.
  intros fitz pil self doc_id page_number image_index raw fs images size e
    Hl Hidx Hopen.
  rewrite (replace_page_image_listed _ _ _ _ _ _ _ _ _ _ Hl).
  rewrite (find_indexed_from image_index images 0)
    by (eauto using listed_indexed || lia).
  destruct (lookup_lt_is_Some_2 images (Z.to_nat (image_index - 0)))
    as [target Ht]; [lia|].
  rewrite Ht. unfold _pixmap_from_bytes, mbind, Result_bind.
  by rewrite Hopen.
Qed.

Lemma replace_page_image_decode_failure_witness :
  replace_page_image Fixture.engine Fixture.decoder Fixture.manager
    "doc" 1 2 (list_byte_of_string "not an image") Fixture.store
  = (Raise (UnidentifiedImageError "cannot identify image file"),
     Fixture.store).
Proof.
  apply (replace_page_image_decode_failure Fixture.engine Fixture.decoder
           Fixture.manager "doc" 1 2 (list_byte_of_string "not an image")
           Fixture.store Fixture.page1_images (612%Q, 792%Q)).
  - exact Fixture_listing_page1.
  - vm_compute. split; [discriminate|reflexivity].
  - reflexivity.
Defined.

(** ** The pixel buffer *)

Section Pixmap.

Variable fitz : Fitz.
Variable pil : Pillow.



Lemma fitz_Pixmap_accepted cs w h s :
  Z.of_nat (length s) = w * h * Colorspace_n cs ->
  Pixmap_init fitz cs w h s = None ->
  fitz_Pixmap fitz cs w h s
  = Return {| Pixmap.colorspace := cs; Pixmap.width := w;
              Pixmap.height := h; Pixmap.samples := s |}.
Proof.
  intros Hl H. unfold fitz_Pixmap. apply Z.eqb_eq in Hl. by rewrite Hl, H.
Qed.

Lemma pixmap_from_rgba raw im s :
  Image_open pil raw = Return im ->
  Image.mode im = "RGBA" ->
  tobytes pil im = Return s ->
  _pixmap_from_bytes fitz pil raw
  = Raise (AttributeError "module 'fitz' has no attribute 'csRGBA'").
Proof.
  intros Ho Hm Ht. unfold _pixmap_from_bytes, mbind, Result_bind.
  rewrite Ho, Hm. simpl. by rewrite Hm, Ht.
Qed.

Lemma pixmap_from_rgb raw im s :
  PillowLaws pil ->
  Image_open pil raw = Return im ->
  Image.mode im = "RGB" ->
  tobytes pil im = Return s ->
  _pixmap_from_bytes fitz pil raw
  = fitz_Pixmap fitz csRGB (Image.width im) (Image.height im) s.
Proof.
  intros Laws Ho Hm Ht. unfold _pixmap_from_bytes, mbind, Result_bind.
  rewrite Ho, Hm. simpl. rewrite Hm. simpl.
  destruct (convert_copy pil Laws im s Ht) as (im' & Hc & Ht').
  rewrite Hm in Hc. by rewrite Hc, Ht'.
Qed.

Lemma pixmap_from_other raw im im' s :
  PillowLaws pil ->
  Image_open pil raw = Return im ->
  mode_is_rgb_or_rgba (Image.mode im) = false ->
  convert pil im "RGBA" = Return im' ->
  tobytes pil im' = Return s ->
  _pixmap_from_bytes fitz pil raw
  = Raise (AttributeError "module 'fitz' has no attribute 'csRGBA'").
Proof.
  intros Laws Ho Hm Hc Ht. unfold _pixmap_from_bytes, mbind, Result_bind.
  rewrite Ho, Hm. simpl. rewrite Hc.
  rewrite (convert_mode pil Laws im "RGBA" im' Hc). simpl. by rewrite Ht.
Qed.



End Pixmap.

Lemma Fixture_decoder_laws : PillowLaws Fixture.decoder.
Proof.
  split.
  - intros im m im' H. simpl in H.
    destruct (String.eqb (Image.mode im) m) eqn:E.
    + apply String.eqb_eq in E. by inversion H; subst.
    + by inversion H; subst.
  - intros im s H. exists im. simpl. by rewrite String.eqb_refl.
Qed.

(** C5, what the code does. For an input that decodes, with Pillow's
    [convert] as documented: when the decoded mode is RGBA, or is neither
    RGB nor RGBA (and is then converted to RGBA), no buffer results:
    building the pixmap evaluates [fitz.csRGBA], which the engine's module
    does not define, and the method raises [AttributeError]. When the mode
    is RGB the samples of the decoded image are passed through unchanged,
    in [fitz.csRGB], three samples a pixel and no alpha, whenever the
    constructor accepts them. *)
Theorem _pixmap_from_bytes_rgba_raises :
  forall fitz pil raw im,
    PillowLaws pil ->
    Image_open pil raw = Return im ->
    (mode_is_rgb_or_rgba (Image.mode im) = false ->
     forall im' s,
       convert pil im "RGBA" = Return im' ->
       tobytes pil im' = Return s ->
       _pixmap_from_bytes fitz pil raw
       = Raise (AttributeError "module 'fitz' has no attribute 'csRGBA'"))
    /\ (Image.mode im = "RGBA" ->
        forall s,
          tobytes pil im = Return s ->
          _pixmap_from_bytes fitz pil raw
          = Raise (AttributeError "module 'fitz' has no attribute 'csRGBA'"))
    /\ (Image.mode im = "RGB" ->
        forall s,
          tobytes pil im = Return s ->
          Z.of_nat (length s) = Image.width im * Image.height im * 3 ->
          Pixmap_init fitz csRGB (Image.width im) (Image.height im) s = None ->
          _pixmap_from_bytes fitz pil raw
          = Return {| Pixmap.colorspace := csRGB;
                      Pixmap.width := Image.width im;
                      Pixmap.height := Image.height im;
                      Pixmap.samples := s |}).
Proof.
  intros fitz pil raw im Laws Ho. split; [|split].
  - intros Hm im' s Hc Ht. by erewrite pixmap_from_other.
  - intros Hm s Ht. by erewrite pixmap_from_rgba.
  - intros Hm s Ht Hlen Hacc. erewrite pixmap_from_rgb by done.
    by apply fitz_Pixmap_accepted.
Qed.

Lemma _pixmap_from_bytes_rgba_raises_witness :
  _pixmap_from_bytes Fixture.engine Fixture.decoder
    (list_byte_of_string "Lab")
  = Raise (AttributeError "module 'fitz' has no attribute 'csRGBA'")
  /\ _pixmap_from_bytes Fixture.engine Fixture.decoder
       (list_byte_of_string "Aabcdefgh")
     = Raise (AttributeError "module 'fitz' has no attribute 'csRGBA'")
  /\ _pixmap_from_bytes Fixture.engine Fixture.decoder
       (list_byte_of_string "Rabcdef")
     = Return {| Pixmap.colorspace := csRGB; Pixmap.width := 2;
                 Pixmap.height := 1;
                 Pixmap.samples := list_byte_of_string "abcdef" |}.
Proof.
  split; [|split].
  - destruct (_pixmap_from_bytes_rgba_raises Fixture.engine Fixture.decoder
                (list_byte_of_string "Lab")
                {| Image.mode := "L"; Image.width := 2; Image.height := 1;
                   Image.payload := list_byte_of_string "ab" |}
                Fixture_decoder_laws eq_refl) as (H & _ & _).
    apply (H eq_refl
             {| Image.mode := "RGBA"; Image.width := 2; Image.height := 1;
                Image.payload := list_byte_of_string "ab" ++ [Byte.xff] |}
             (list_byte_of_string "ab" ++ [Byte.xff])); reflexivity.
  - destruct (_pixmap_from_bytes_rgba_raises Fixture.engine Fixture.decoder
                (list_byte_of_string "Aabcdefgh")
                {| Image.mode := "RGBA"; Image.width := 2; Image.height := 1;
                   Image.payload := list_byte_of_string "abcdefgh" |}
                Fixture_decoder_laws eq_refl) as (_ & H & _).
    apply (H eq_refl (list_byte_of_string "abcdefgh")). reflexivity.
  - destruct (_pixmap_from_bytes_rgba_raises Fixture.engine Fixture.decoder
                (list_byte_of_string "Rabcdef")
                {| Image.mode := "RGB"; Image.width := 2; Image.height := 1;
                   Image.payload := list_byte_of_string "abcdef" |}
                Fixture_decoder_laws eq_refl) as (_ & _ & H).
    apply (H eq_refl (list_byte_of_string "abcdef")); reflexivity.
Defined.



(** ** Uploading *)

(** C10. [save_pdf] writes the uploaded bytes under the fresh identifier
    before it parses them: when the engine does not open them as a PDF, the
    call fails with the engine's error, returns no identifier, and the
    file is in the store all the same. *)
Theorem save_pdf_writes_before_parsing :
  forall fitz self uuid4_hex file_bytes fs e,
    fitz_open fitz file_bytes = Raise e ->
    save_pdf fitz self uuid4_hex file_bytes fs
    = (Raise e, <[_document_path self uuid4_hex := file_bytes]> fs)
    /\ (save_pdf fitz self uuid4_hex file_bytes fs).2
         !! _document_path self uuid4_hex = Some file_bytes.
Proof.
  intros fitz self uuid4_hex file_bytes fs e Ho.
  assert (Heq : save_pdf fitz self uuid4_hex file_bytes fs
    = (Raise e, <[_document_path self uuid4_hex := file_bytes]> fs)).
  { unfold save_pdf, write_bytes, lift, mbind, M_bind. by rewrite Ho. }
  split; [exact Heq|]. rewrite Heq. simpl. apply lookup_insert_eq.
Qed.

Lemma save_pdf_writes_before_parsing_witness :
  save_pdf Fixture.engine Fixture.manager "0af3" (list_byte_of_string "junk")
    Fixture.store
  = (Raise (FileDataError "Failed to open stream"),
     <[_document_path Fixture.manager "0af3" := list_byte_of_string "junk"]>
       Fixture.store)
  /\ (save_pdf Fixture.engine Fixture.manager "0af3"
        (list_byte_of_string "junk") Fixture.store).2
       !! _document_path Fixture.manager "0af3"
     = Some (list_byte_of_string "junk").
Proof.
  apply (save_pdf_writes_before_parsing Fixture.engine Fixture.manager
           "0af3" (list_byte_of_string "junk") Fixture.store).
  reflexivity.
Defined.

Lemma save_pdf_fs fitz self uuid4_hex file_bytes fs :
  (save_pdf fitz self uuid4_hex file_bytes fs).2
  = <[_document_path self uuid4_hex := file_bytes]> fs.
Proof.
  unfold save_pdf, write_bytes, lift, mbind, M_bind.
  by destruct (fitz_open fitz file_bytes).
Qed.

(** ** Resolving an identifier *)

Lemma string_length_app (a b : string) :
  String.length (a +:+ b) = (String.length a + String.length b)%nat.
Proof. induction a as [|c a IH]; simpl; [done|]. by rewrite IH. Qed.



Lemma split_slash_no_slash (s : string) :
  has_slash s = false -> pathlib.split_slash s = [s].
Proof.
  induction s as [|c s IH]; simpl; [done|].
  intros H. apply orb_false_iff in H as [Hc Hs].
  rewrite Hc, (IH Hs). done.
Qed.

Lemma is_name_pdf (doc_id : string) : pathlib.is_name (doc_id +:+ ".pdf") = true.
Proof.
  unfold pathlib.is_name. apply andb_true_iff. split; apply negb_true_iff.
  - apply String.eqb_neq. intros H. apply (f_equal String.length) in H.
    rewrite string_length_app in H. simpl in H. lia.
  - apply String.eqb_neq. intros H. apply (f_equal String.length) in H.
    rewrite string_length_app in H. simpl in H. lia.
Qed.






(** ** The stored bytes under replacement *)

Section Preservation.

Variable fitz : Fitz.
Variable pil : Pillow.
Variable self : DocumentManager.

(** What a call of [replace_page_image] does to the store: nothing when it
    fails before the save, and when it returns, one incremental save of
    the document's own file. *)
Lemma replace_page_image_store doc_id page_number image_index raw fs :
  (exists e,
      replace_page_image fitz pil self doc_id page_number image_index raw fs
      = (Raise e, fs))
  \/ (exists doc old new,
        fs !! _document_path self doc_id = Some old
        /\ save fitz doc (Some old) true PDF_ENCRYPT_KEEP = Return new
        /\ replace_page_image fitz pil self doc_id page_number image_index
             raw fs
           = (Return tt, <[_document_path self doc_id := new]> fs)).
Proof.
  destruct (fs !! _document_path self doc_id) as [old|] eqn:Hfs;
    [|left; by apply replace_page_image_absent].
  pose proof (list_page_images_fs fitz self doc_id page_number fs) as Hl2.
  destruct (list_page_images fitz self doc_id page_number fs)
    as [[[images size]|e] fs1] eqn:Hl; simpl in Hl2; subst fs1;
    [|left; eexists; by apply replace_page_image_not_listed].
  rewrite (replace_page_image_listed _ _ _ _ _ _ _ _ _ _ Hl).
  destruct (find_index images image_index) as [target|]; [|left; by eexists].
  destruct (_pixmap_from_bytes fitz pil raw) as [pix|e]; [|left; by eexists].
  unfold fitz_open_path, read_bytes, lift, Document_save, mbind, M_bind.
  rewrite Hfs.
  destruct (fitz_open fitz old) as [doc|e]; [|left; by eexists].
  destruct (Document.load_page doc (page_number - 1)) as [page|e];
    [|left; by eexists].
  destruct (replace_image fitz doc (page_number - 1) (PageImage.xref target) pix)
    as [doc'|e]; [|left; by eexists].
  rewrite Hfs.
  destruct (save fitz doc' (Some old) true PDF_ENCRYPT_KEEP) as [new|e] eqn:Hs;
    [|left; by eexists].
  right. by exists doc', old, new.
Qed.

Hypothesis appends : incremental_save_appends fitz.

(** One call of [replace_page_image], on whatever document, extends the
    file at [path] or leaves it. *)
Lemma replace_page_image_prefix path old doc_id page_number image_index raw fs :
  fs !! path = Some old ->
  exists new,
    (replace_page_image fitz pil self doc_id page_number image_index raw fs).2
      !! path = Some new
    /\ old `prefix_of` new.
Proof.
  intros Hp.
  destruct (replace_page_image_store doc_id page_number image_index raw fs)
    as [[e ->]|(doc & old' & new & Hold & Hsave & ->)]; simpl.
  - by exists old.
  - destruct (decide (_document_path self doc_id = path)) as [<-|Hne].
    + rewrite lookup_insert_eq. exists new. split; [done|].
      rewrite Hold in Hp. inversion Hp; subst. by eapply appends.
    + rewrite lookup_insert_ne by done. by exists old.
Qed.

Lemma run_call_prefix path old c fs :
  upload_elsewhere self path c ->
  fs !! path = Some old ->
  exists new, run_call fitz pil self c fs !! path = Some new
              /\ old `prefix_of` new.
Proof.
  intros Hc Hp. destruct c as [u b|d|d n z|d n|d n i raw]; simpl.
  - rewrite save_pdf_fs. simpl in Hc. rewrite lookup_insert_ne by done.
    by exists old.
  - unfold get_pdf_file, _ensure_document, exists_, mbind, M_bind.
    destruct (fs !! _document_path self d);
      [|destruct (name_too_long _)]; by exists old.
  - rewrite get_page_preview_fs. by exists old.
  - rewrite list_page_images_fs. by exists old.
  - by apply replace_page_image_prefix.
Qed.

Lemma run_calls_prefix path calls : forall old fs,
  Forall (upload_elsewhere self path) calls ->
  fs !! path = Some old ->
  exists new, run_calls fitz pil self calls fs !! path = Some new
              /\ old `prefix_of` new.
Proof.
  induction calls as [|c calls IH]; intros old fs Hall Hp; [by exists old|].
  apply Forall_cons in Hall as [Hc Hall].
  destruct (run_call_prefix path old c fs Hc Hp) as (mid & Hmid & Hpre).
  destruct (IH mid _ Hall Hmid) as (new & Hnew & Hpre').
  exists new. split; [done|]. by etrans.
Qed.

End Preservation.

Lemma prefix_take_length {A} (l k : list A) :
  l `prefix_of` k -> take (length l) k = l.
Proof. intros [t ->]. apply take_app_length. Qed.

Lemma Fixture_engine_appends : incremental_save_appends Fixture.engine.
Proof.
  intros doc old enc new H. simpl in H. inversion H; subst.
  by apply prefix_app_r.
Qed.

Lemma _ensure_document_fs_eq self doc_id fs :
  (get_pdf_file self doc_id fs).2 = fs.
Proof.
  unfold get_pdf_file, _ensure_document, exists_, mbind, M_bind.
  destruct (fs !! _document_path self doc_id);
    [|destruct (name_too_long _)]; done.
Qed.

Lemma Fixture_replace_returns :
  replace_page_image Fixture.engine Fixture.decoder Fixture.manager
    "doc" 1 0 (list_byte_of_string "Rabcdef") Fixture.store
  = (Return tt,
     <[_document_path Fixture.manager "doc"
       := Fixture.pdf_bytes ++ list_byte_of_string "xref"]> Fixture.store).
Proof.
  rewrite (replace_page_image_listed _ _ _ _ _ _ _ _ _ _ Fixture_listing_page1).
  change (find_index Fixture.page1_images 0)
    with (Some (Fixture.occ 0 5 72 72 288 288)).
  change (_pixmap_from_bytes Fixture.engine Fixture.decoder
            (list_byte_of_string "Rabcdef"))
    with (Return {| Pixmap.colorspace := csRGB; Pixmap.width := 2;
                    Pixmap.height := 1;
                    Pixmap.samples := list_byte_of_string "abcdef" |}).
  unfold fitz_open_path, read_bytes, lift, Document_save, mbind, M_bind.
  rewrite Fixture_store_doc. simpl. rewrite Fixture_store_doc. reflexivity.
Qed.

Lemma Fixture_replace_returns_in fs :
  fs !! _document_path Fixture.manager "doc" = Some Fixture.pdf_bytes ->
  replace_page_image Fixture.engine Fixture.decoder Fixture.manager
    "doc" 1 0 (list_byte_of_string "Rabcdef") fs
  = (Return tt,
     <[_document_path Fixture.manager "doc"
       := Fixture.pdf_bytes ++ list_byte_of_string "xref"]> fs).
Proof.
  intros Hfs.
  assert (Hl : list_page_images Fixture.engine Fixture.manager "doc" 1 fs
               = (Return (Fixture.page1_images, (612%Q, 792%Q)), fs)).
  { rewrite (list_page_images_stored Fixture.engine Fixture.manager "doc" 1
               fs Fixture.pdf_bytes Fixture.document Hfs eq_refl).
    f_equal. }
  rewrite (replace_page_image_listed _ _ _ _ _ _ _ _ _ _ Hl).
  change (find_index Fixture.page1_images 0)
    with (Some (Fixture.occ 0 5 72 72 288 288)).
  change (_pixmap_from_bytes Fixture.engine Fixture.decoder
            (list_byte_of_string "Rabcdef"))
    with (Return {| Pixmap.colorspace := csRGB; Pixmap.width := 2;
                    Pixmap.height := 1;
                    Pixmap.samples := list_byte_of_string "abcdef" |}).
  unfold fitz_open_path, read_bytes, lift, Document_save, mbind, M_bind.
  rewrite Hfs. simpl. rewrite Hfs. reflexivity.
Qed.

(** C3. A document is uploaded as [file_bytes]; calls of any kind follow
    (later uploads drawing identifiers of their own); then a call of
    [replace_page_image] on the document returns. With an engine whose
    incremental save appends, the stored document then begins with
    [file_bytes]: its first [len(file_bytes)] bytes are the uploaded ones. *)
Theorem replace_page_image_preserves_prefix :
  forall fitz pil self uuid4_hex file_bytes fs0 calls
         page_number image_index raw fs',
    incremental_save_appends fitz ->
    Forall (upload_elsewhere self (_document_path self uuid4_hex)) calls ->
    replace_page_image fitz pil self uuid4_hex page_number image_index raw
      (run_calls fitz pil self calls
         (save_pdf fitz self uuid4_hex file_bytes fs0).2)
    = (Return tt, fs') ->
    exists stored,
      fs' !! _document_path self uuid4_hex = Some stored
      /\ take (length file_bytes) stored = file_bytes.
Proof.
  intros fitz pil self uuid4_hex file_bytes fs0 calls page_number image_index
    raw fs' Happ Hcalls Hret.
  set (path := _document_path self uuid4_hex) in *.
  set (fs1 := (save_pdf fitz self uuid4_hex file_bytes fs0).2) in *.
  assert (H1 : fs1 !! path = Some file_bytes).
  { unfold fs1. rewrite save_pdf_fs. apply lookup_insert_eq. }
  destruct (run_calls_prefix fitz pil self Happ path calls file_bytes fs1
              Hcalls H1) as (mid & Hmid & Hpre).
  destruct (replace_page_image_prefix fitz pil self Happ path mid uuid4_hex
              page_number image_index raw _ Hmid) as (new & Hnew & Hpre').
  rewrite Hret in Hnew. simpl in Hnew.
  exists new. split; [done|]. apply prefix_take_length. by etrans.
Qed.

Lemma replace_page_image_preserves_prefix_witness :
  exists stored,
    (<[_document_path Fixture.manager "doc"
       := Fixture.pdf_bytes ++ list_byte_of_string "xref"]>
       (<[_document_path Fixture.manager "0af3"
          := list_byte_of_string "junk"]>
          (<[_document_path Fixture.manager "doc" := Fixture.pdf_bytes]>
             (∅ : FS))))
      !! _document_path Fixture.manager "doc" = Some stored
    /\ take (length Fixture.pdf_bytes) stored = Fixture.pdf_bytes.
Proof.
  apply (replace_page_image_preserves_prefix Fixture.engine Fixture.decoder
           Fixture.manager "doc" Fixture.pdf_bytes ∅
           [call_list_page_images "doc" 1;
            call_save_pdf "0af3" (list_byte_of_string "junk");
            call_get_page_preview "doc" 1 2; call_get_pdf_file "doc"]
           1 0 (list_byte_of_string "Rabcdef")).
  - exact Fixture_engine_appends.
  - repeat constructor. vm_compute. discriminate.
  - unfold run_calls, foldl, run_call.
    rewrite _ensure_document_fs_eq, get_page_preview_fs, save_pdf_fs,
      list_page_images_fs, save_pdf_fs.
    apply Fixture_replace_returns_in.
    rewrite lookup_insert_ne by (vm_compute; discriminate).
    apply lookup_insert_eq.
Defined.

(** * Further properties of the code *)

(** ** What a listing contains *)

(** X1. The occurrences of a listing are the placements of the listed
    resources, resource by resource in the order of [page.get_images] and,
    for each resource, in the order of [page.get_image_rects]: a resource
    is listed when it has a placement, the engine takes it for an image and
    its extraction returns a dict with the key ["image"]. *)
Theorem list_page_images_order :
  forall fitz self doc_id page_number fs data doc page images size fs',
    fs !! _document_path self doc_id = Some data ->
    fitz_open fitz data = Return doc ->
    Document.pages doc !! Z.to_nat (page_number - 1) = Some page ->
    list_page_images fitz self doc_id page_number fs
    = (Return (images, size), fs') ->
    map placement_of images
    = flat_map (placements page)
        (List.filter (listed doc page) (Page.get_images page)).
Proof.
  intros fitz self doc_id page_number fs data doc page images size fs'
    Hfs Hopen Hp Hl.
  apply list_page_images_Return in Hl
    as (data' & doc' & page' & Hfs' & Hopen' & _ & Hp' & Hi & _ & _).
  rewrite Hfs in Hfs'. inversion Hfs'; subst data'.
  rewrite Hopen in Hopen'. inversion Hopen'; subst doc'.
  rewrite Hp in Hp'. inversion Hp'; subst page'.
  by rewrite (index_entries_placements _ _ _ _ _ _ Hi).
Qed.

Lemma list_page_images_order_witness :
  map placement_of Fixture.page1_images
  = flat_map (placements Fixture.page1)
      (List.filter (listed Fixture.document Fixture.page1)
         (Page.get_images Fixture.page1)).
Proof.
  apply (list_page_images_order Fixture.engine Fixture.manager "doc" 1
           Fixture.store Fixture.pdf_bytes Fixture.document Fixture.page1
           Fixture.page1_images (612%Q, 792%Q) Fixture.store).
  - exact Fixture_store_doc.
  - reflexivity.
  - reflexivity.
  - exact Fixture_listing_page1.
Defined.

(** X2. Every occurrence of a listing carries the attributes of its
    resource: the engine takes the resource for an image, the preview is
    the base64 text of the extracted bytes, and width, height and extension
    are the extracted ones, 0, 0 and ["png"] standing in for absent keys.
    Hence two occurrences of one resource differ in index and box only. *)
Theorem list_page_images_attributes :
  forall fitz self doc_id page_number fs data doc images size fs',
    fs !! _document_path self doc_id = Some data ->
    fitz_open fitz data = Return doc ->
    list_page_images fitz self doc_id page_number fs
    = (Return (images, size), fs') ->
    Forall (attributes_of_resource doc) images
    /\ (forall a b, a ∈ images -> b ∈ images ->
          PageImage.xref a = PageImage.xref b ->
          PageImage.preview_base64 a = PageImage.preview_base64 b
          /\ PageImage.width a = PageImage.width b
          /\ PageImage.height a = PageImage.height b
          /\ PageImage.extension a = PageImage.extension b).
Proof.
  intros fitz self doc_id page_number fs data doc images size fs'
    Hfs Hopen Hl.
  apply list_page_images_Return in Hl
    as (data' & doc' & page & Hfs' & Hopen' & _ & _ & Hi & _ & _).
  rewrite Hfs in Hfs'. inversion Hfs'; subst data'.
  rewrite Hopen in Hopen'. inversion Hopen'; subst doc'.
  assert (Hall : Forall (attributes_of_resource doc) images).
  { eapply index_entries_attributes; [constructor|exact Hi]. }
  split; [exact Hall|].
  intros a b Ha Hb Hx. rewrite Forall_forall in Hall.
  destruct (Hall a Ha) as (_ & ia & ima & Hea & Hia & -> & -> & -> & ->).
  destruct (Hall b Hb) as (_ & ib & imb & Heb & Hib & -> & -> & -> & ->).
  rewrite Hx, Heb in Hea. inversion Hea; subst ia.
  rewrite Hib in Hia. inversion Hia; subst ima. done.
Qed.

Lemma list_page_images_attributes_witness :
  Forall (attributes_of_resource Fixture.document) Fixture.page1_images
  /\ (forall a b, a ∈ Fixture.page1_images -> b ∈ Fixture.page1_images ->
        PageImage.xref a = PageImage.xref b ->
        PageImage.preview_base64 a = PageImage.preview_base64 b
        /\ PageImage.width a = PageImage.width b
        /\ PageImage.height a = PageImage.height b
        /\ PageImage.extension a = PageImage.extension b).
Proof.
  apply (list_page_images_attributes Fixture.engine Fixture.manager "doc" 1
           Fixture.store Fixture.pdf_bytes Fixture.document
           Fixture.page1_images (612%Q, 792%Q) Fixture.store).
  - exact Fixture_store_doc.
  - reflexivity.
  - exact Fixture_listing_page1.
Defined.

(** ** When a listing fails *)




(** ** What the methods do to the store *)

Lemma _ensure_document_fs self doc_id fs :
  (_ensure_document self doc_id fs).2 = fs.
Proof.
  unfold _ensure_document, exists_, raise, mbind, mret, M_bind, M_ret.
  destruct (fs !! _document_path self doc_id);
    [|destruct (name_too_long _)]; done.
Qed.

(** X4. [get_pdf_file], [get_page_preview] and [list_page_images] leave
    the store as it is, whether they return or raise. *)
Theorem reading_methods_leave_the_store :
  forall fitz self doc_id page_number zoom fs,
    (get_pdf_file self doc_id fs).2 = fs
    /\ (get_page_preview fitz self doc_id page_number zoom fs).2 = fs
    /\ (list_page_images fitz self doc_id page_number fs).2 = fs.
Proof.
  intros fitz self doc_id page_number zoom fs. split; [|split].
  - apply _ensure_document_fs.
  - apply get_page_preview_fs.
  - apply list_page_images_fs.
Qed.

(** X5. [replace_page_image] creates and removes no file, and changes no
    file but the one of the document, whether it returns or raises. *)
Theorem replace_page_image_touches_one_file :
  forall fitz pil self doc_id page_number image_index raw fs,
    let fs' :=
      (replace_page_image fitz pil self doc_id page_number image_index raw
         fs).2 in
    dom fs' = dom fs
    /\ (forall path, path <> _document_path self doc_id ->
          fs' !! path = fs !! path).
Proof.
  intros fitz pil self doc_id page_number image_index raw fs.
  destruct (replace_page_image_store fitz pil self doc_id page_number
              image_index raw fs)
    as [[e ->]|(doc & old & new & Hold & _ & ->)]; simpl; [done|].
  split.
  - rewrite dom_insert_L. apply subseteq_union_1_L, singleton_subseteq_l.
    apply elem_of_dom. by eexists.
  - intros path Hne. by rewrite lookup_insert_ne.
Qed.

(** X6. Replacement goes by the resource, not by the placement: for two
    indices of a listing whose occurrences share the resource, the calls
    of [replace_page_image] have the same outcome and leave the same
    store. *)
Theorem replace_page_image_by_resource :
  forall fitz pil self doc_id page_number raw fs images size i j a b,
    list_page_images fitz self doc_id page_number fs
    = (Return (images, size), fs) ->
    images !! i = Some a ->
    images !! j = Some b ->
    PageImage.xref a = PageImage.xref b ->
    replace_page_image fitz pil self doc_id page_number (Z.of_nat i) raw fs
    = replace_page_image fitz pil self doc_id page_number (Z.of_nat j) raw fs.
Proof.
  intros fitz pil self doc_id page_number raw fs images size i j a b
    Hl Ha Hb Hx.
  pose proof (listed_indexed _ _ _ _ _ _ _ _ Hl) as Hidx.
  rewrite !(replace_page_image_listed _ _ _ _ _ _ _ _ _ _ Hl).
  pose proof (lookup_lt_Some _ _ _ Ha). pose proof (lookup_lt_Some _ _ _ Hb).
  rewrite !(find_indexed_from _ images 0 Hidx) by lia.
  rewrite !Z.sub_0_r, !Nat2Z.id, Ha, Hb, Hx. done.
Qed.

Lemma replace_page_image_by_resource_witness :
  replace_page_image Fixture.engine Fixture.decoder Fixture.manager
    "doc" 1 (Z.of_nat 1) (list_byte_of_string "Rabcdef") Fixture.store
  = replace_page_image Fixture.engine Fixture.decoder Fixture.manager
      "doc" 1 (Z.of_nat 2) (list_byte_of_string "Rabcdef") Fixture.store.
Proof.
  apply (replace_page_image_by_resource Fixture.engine Fixture.decoder
           Fixture.manager "doc" 1 (list_byte_of_string "Rabcdef")
           Fixture.store Fixture.page1_images (612%Q, 792%Q) 1%nat 2%nat
           (Fixture.occ 1 7 300 72 400 172) (Fixture.occ 2 7 300 200 400 300)).
  - exact Fixture_listing_page1.
  - reflexivity.
  - reflexivity.
  - reflexivity.
Defined.

Lemma replace_page_image_touches_one_file_witness :
  dom (replace_page_image Fixture.engine Fixture.decoder Fixture.manager
         "doc" 1 0 (list_byte_of_string "Rabcdef") Fixture.store).2
  = dom Fixture.store
  /\ (replace_page_image Fixture.engine Fixture.decoder Fixture.manager
        "doc" 1 0 (list_byte_of_string "Rabcdef") Fixture.store).2
       !! _document_path Fixture.manager "other"
     = Fixture.store !! _document_path Fixture.manager "other".
Proof.
  destruct (replace_page_image_touches_one_file Fixture.engine
              Fixture.decoder Fixture.manager "doc" 1 0
              (list_byte_of_string "Rabcdef") Fixture.store) as [Hd Hf].
  split; [exact Hd|]. apply Hf. vm_compute. discriminate.
Defined.

(** ** Previews *)








(** ** Upload, then the other methods *)



(** ** The name of the resolved file *)

Lemma split_slash_app (a b : string) :
  has_slash b = false ->
  exists init last,
    pathlib.split_slash a = init ++ [last]
    /\ pathlib.split_slash (a +:+ b) = init ++ [last +:+ b].
Proof.
  intros Hb. induction a as [|c a (init & last & Ha & Hab)].
  - exists [], "". simpl. by rewrite split_slash_no_slash.
  - simpl. destruct (Ascii.eqb c "/").
    + exists ("" :: init), last. by rewrite Ha, Hab.
    + rewrite Ha, Hab. destruct init as [|x init]; simpl.
      * by exists [], (String c last).
      * by exists (String c x :: init), last.
Qed.

(** X9. Whatever the identifier, the path that [_document_path] resolves
    it to has a last component that ends in [.pdf]: no method reads or
    writes a file of another name. *)
Theorem _document_path_names_a_pdf :
  forall self doc_id,
    exists dirs name,
      pathlib.tail (_document_path self doc_id) = dirs ++ [name]
      /\ ends_with_pdf name.
Proof.
  intros self doc_id.
  destruct (split_slash_app doc_id ".pdf" eq_refl)
    as (init & last & _ & Hsplit).
  assert (Htail : pathlib.parse_tail (doc_id +:+ ".pdf")
                  = List.filter pathlib.is_name init ++ [last +:+ ".pdf"]).
  { unfold pathlib.parse_tail. rewrite Hsplit, List.filter_app. simpl.
    by rewrite is_name_pdf. }
  unfold _document_path, pathlib.truediv.
  destruct (pathlib.is_absolute_str (doc_id +:+ ".pdf")); simpl;
    rewrite Htail.
  - exists (List.filter pathlib.is_name init), (last +:+ ".pdf").
    split; [done|]. by exists last.
  - exists (pathlib.tail (storage_root self)
            ++ List.filter pathlib.is_name init), (last +:+ ".pdf").
    split; [by rewrite app_assoc|]. by exists last.
Qed.

(** ** The base64 text *)

Lemma get_chars (s : string) : forall k c,
  String.get k s = Some c -> c ∈ chars s.
Proof.
  induction s as [|a s IH]; intros k c H; [done|].
  destruct k as [|k]; simpl in H.
  - inversion H; subst. by left.
  - right. by eapply IH.
Qed.

Lemma sextet_in_alphabet n :
  base64.sextet n ∈ chars base64.alphabet \/ base64.sextet n = "="%char.
Proof.
  unfold base64.sextet.
  destruct (String.get (N.to_nat n) base64.alphabet) as [c|] eqn:E.
  - left. by eapply get_chars.
  - by right.
Qed.

Lemma b64encode_by_three (P : bytes -> Prop) :
  P [] -> (forall a, P [a]) -> (forall a b, P [a; b]) ->
  (forall a b c l, P l -> P (a :: b :: c :: l)) ->
  forall l, P l.
Proof.
  intros H0 H1 H2 H3 l.
  assert (H : P l /\ (forall a, P (a :: l)) /\ (forall a b, P (a :: b :: l))).
  { induction l as [|c l (IH0 & IH1 & IH2)]; [done|].
    split; [exact (IH1 c)|]. split; [exact (fun a => IH2 a c)|].
    intros a b. by apply H3. }
  apply H.
Qed.

(** X10. The base64 text of [n] bytes, as the previews carry it, has
    [4 * ceil(n / 3)] characters, all of them of the base64 alphabet or the
    padding sign; for no bytes it is empty. *)
Theorem b64encode_length_and_alphabet :
  forall s : bytes,
    String.length (base64.b64encode s) = (4 * ((length s + 2) / 3))%nat
    /\ base64_text (base64.b64encode s).
Proof.
  apply b64encode_by_three.
  - split; [reflexivity|]. unfold base64_text. simpl. constructor.
  - intros a. split; [reflexivity|]. unfold base64_text. simpl.
    repeat (constructor;
            [first [apply sextet_in_alphabet | by right]|]).
    constructor.
  - intros a b. split; [reflexivity|]. unfold base64_text. simpl.
    repeat (constructor;
            [first [apply sextet_in_alphabet | by right]|]).
    constructor.
  - intros a b c l [Hlen Htext]. split.
    + change (base64.b64encode (a :: b :: c :: l))
        with (String (base64.sextet
                 (((Byte.to_N a * 256 + Byte.to_N b) * 256 + Byte.to_N c)
                  / 262144))
               (String (base64.sextet
                  ((((Byte.to_N a * 256 + Byte.to_N b) * 256 + Byte.to_N c)
                    / 4096) mod 64))
                  (String (base64.sextet
                     ((((Byte.to_N a * 256 + Byte.to_N b) * 256
                        + Byte.to_N c) / 64) mod 64))
                     (String (base64.sextet
                        (((Byte.to_N a * 256 + Byte.to_N b) * 256
                          + Byte.to_N c) mod 64))
                        (base64.b64encode l))))).
      cbn [String.length length]. rewrite Hlen.
      replace (S (S (S (length l))) + 2)%nat
        with (length l + 2 + 1 * 3)%nat by lia.
      rewrite Nat.div_add by lia. lia.
    + unfold base64_text in *.
      change (base64.b64encode (a :: b :: c :: l))
        with (String (base64.sextet
                 (((Byte.to_N a * 256 + Byte.to_N b) * 256 + Byte.to_N c)
                  / 262144))
               (String (base64.sextet
                  ((((Byte.to_N a * 256 + Byte.to_N b) * 256 + Byte.to_N c)
                    / 4096) mod 64))
                  (String (base64.sextet
                     ((((Byte.to_N a * 256 + Byte.to_N b) * 256
                        + Byte.to_N c) / 64) mod 64))
                     (String (base64.sextet
                        (((Byte.to_N a * 256 + Byte.to_N b) * 256
                          + Byte.to_N c) mod 64))
                        (base64.b64encode l))))).
      cbn [chars].
      repeat (constructor; [apply sextet_in_alphabet|]). exact Htext.
Qed.

(** ** The routes of app/main.py *)

Section Routes.

Variable fitz : Fitz.
Variable pil : Pillow.
Variable dm : DocumentManager.

(** X11. [POST /upload]: a file whose content type is neither
    [application/pdf] nor [application/octet-stream] (or is absent) is
    answered with status 400 and nothing is stored; otherwise the bytes are
    stored under the drawn identifier, and the route answers with the
    identifier and the page count when the engine opens them, and lets the
    engine's error through, uncaught, with the bytes left in the store,
    when it does not. *)
Theorem upload_pdf_outcomes :
  forall file uuid4_hex fs,
    let allowed :=
      content_type_in (UploadFile.content_type file)
        ["application/pdf"; "application/octet-stream"] in
    let stored :=
      <[_document_path dm uuid4_hex := UploadFile.content file]> fs in
    (allowed = false ->
     main.upload_pdf fitz dm file uuid4_hex fs
     = (HTTPException 400 "Only PDF files are supported", fs))
    /\ (allowed = true ->
        forall doc, fitz_open fitz (UploadFile.content file) = Return doc ->
          main.upload_pdf fitz dm file uuid4_hex fs
          = (Respond {| UploadResponse.document_id := uuid4_hex;
                        UploadResponse.page_count := Document.page_count doc |}
               [], stored))
    /\ (allowed = true ->
        forall e, fitz_open fitz (UploadFile.content file) = Raise e ->
          main.upload_pdf fitz dm file uuid4_hex fs = (Uncaught e, stored)).
Proof.
  intros file uuid4_hex fs allowed stored. unfold main.upload_pdf.
  fold allowed. split; [|split].
  - by intros ->.
  - intros -> doc Ho. simpl.
    unfold save_pdf, write_bytes, lift, mbind, mret, M_bind, M_ret.
    by rewrite Ho.
  - intros -> e Ho. simpl.
    unfold save_pdf, write_bytes, lift, mbind, mret, M_bind, M_ret.
    by rewrite Ho.
Qed.




(** X14. When the manager lists a page, [GET /images] answers with one
    item for each occurrence, in order: the item at position [k] has index
    [k], its box has the four coordinates of the occurrence, and its
    preview is the data URL of the occurrence's extension and base64 text.
    The page size is the manager's, and the store is as before. *)
Theorem list_page_images_route_items :
  forall document_id page_number response fs images w h,
    list_page_images fitz dm document_id page_number fs
    = (Return (images, (w, h)), fs) ->
    exists body,
      main.list_page_images fitz dm document_id page_number response fs
      = (Respond body (main.no_store response), fs)
      /\ PageImagesResponse.width body = w
      /\ PageImagesResponse.height body = h
      /\ length (PageImagesResponse.images body) = length images
      /\ (forall (k : nat) item,
            PageImagesResponse.images body !! k = Some item ->
            PageImageMetadata.index item = Z.of_nat k
            /\ exists img,
                 images !! k = Some img
                 /\ PageImageMetadata.bbox item
                    = [(PageImage.bbox img).1.1.1; (PageImage.bbox img).1.1.2;
                       (PageImage.bbox img).1.2; (PageImage.bbox img).2]
                 /\ PageImageMetadata.width item = PageImage.width img
                 /\ PageImageMetadata.height item = PageImage.height img
                 /\ PageImageMetadata.preview_data_url item
                    = "data:image/" +:+ PageImage.extension img
                      +:+ ";base64," +:+ PageImage.preview_base64 img).
Proof.
  intros document_id page_number response fs images w h Hl.
  pose proof (listed_indexed _ _ _ _ _ _ _ _ Hl) as Hidx.
  eexists. unfold main.list_page_images. rewrite Hl.
  split; [reflexivity|]. simpl. split; [done|]. split; [done|].
  split; [by rewrite length_map|].
  intros k item Hk. rewrite list_lookup_fmap in Hk.
  destruct (images !! k) as [img|] eqn:Hi; [|done].
  simpl in Hk. inversion Hk; subst item.
  unfold main.image_item.
  destruct (PageImage.bbox img) as [[[a b] c] d] eqn:Hb. simpl.
  split; [by rewrite (Hidx k img Hi)|].
  exists img. by rewrite Hb.
Qed.

(** X15. Upload, then download: after [POST /upload] has answered with an
    identifier, [GET /document/{document_id}] for that identifier answers
    with the file at whose path the store holds the uploaded bytes, byte
    for byte, under the file name [pdf-image-surgeon-<id>.pdf]. *)
Theorem upload_then_download :
  forall file uuid4_hex fs body headers fs',
    main.upload_pdf fitz dm file uuid4_hex fs
    = (Respond body headers, fs') ->
    exists pdf_path,
      main.download_document dm (UploadResponse.document_id body) fs'
      = (Respond {| FileResponse.path := pdf_path;
                    FileResponse.media_type := "application/pdf";
                    FileResponse.filename :=
                      "pdf-image-surgeon-"
                      +:+ UploadResponse.document_id body +:+ ".pdf" |} [],
         fs')
      /\ fs' !! pdf_path = Some (UploadFile.content file).
Proof.
  intros file uuid4_hex fs body headers fs' Hup.
  unfold main.upload_pdf in Hup.
  destruct (negb _) in Hup; [done|].
  pose proof (save_pdf_fs fitz dm uuid4_hex (UploadFile.content file) fs)
    as Hfs.
  destruct (save_pdf fitz dm uuid4_hex (UploadFile.content file) fs)
    as [[[doc_id page_count]|e] fs1] eqn:Hs; [|done].
  simpl in Hfs. inversion Hup; subst body headers fs'. simpl.
  assert (doc_id = uuid4_hex) as ->.
  { unfold save_pdf, write_bytes, lift, mbind, mret, M_bind, M_ret in Hs.
    destruct (fitz_open fitz (UploadFile.content file)); by inversion Hs. }
  assert (Hst : fs1 !! _document_path dm uuid4_hex
                = Some (UploadFile.content file)).
  { rewrite Hfs. apply lookup_insert_eq. }
  exists (_document_path dm uuid4_hex). split; [|done].
  unfold main.download_document, get_pdf_file.
  by rewrite (_ensure_document_found dm uuid4_hex fs1 _ Hst).
Qed.

(** X16. The routes [GET /preview], [GET /images] and
    [GET /document/{document_id}] leave the store as it is, whatever they
    answer. *)
Theorem reading_routes_leave_the_store :
  forall document_id page_number zoom response fs,
    (main.get_page_preview fitz dm document_id page_number zoom response fs).2
    = fs
    /\ (main.list_page_images fitz dm document_id page_number response fs).2
       = fs
    /\ (main.download_document dm document_id fs).2 = fs.
Proof.
  intros document_id page_number zoom response fs. split; [|split].
  - unfold main.get_page_preview.
    pose proof (get_page_preview_fs fitz dm document_id page_number zoom fs)
      as H.
    destruct (get_page_preview fitz dm document_id page_number zoom fs)
      as [[[[pv w] h]|e] fs1]; simpl in *; [done|].
    by destruct (isinstance_FileNotFoundError_or_ValueError e).
  - unfold main.list_page_images.
    pose proof (list_page_images_fs fitz dm document_id page_number fs) as H.
    destruct (list_page_images fitz dm document_id page_number fs)
      as [[[images [w h]]|e] fs1]; simpl in *; [done|].
    by destruct (isinstance_FileNotFoundError_or_ValueError e).
  - unfold main.download_document.
    pose proof (_ensure_document_fs dm document_id fs) as H.
    unfold get_pdf_file.
    destruct (_ensure_document dm document_id fs) as [[p|e] fs1];
      simpl in *; [done|].
    by destruct (isinstance_FileNotFoundError e).
Qed.

End Routes.

(** The routes on the fixture. *)

Lemma upload_pdf_accepted fitz dm file uuid4_hex fs doc :
  content_type_in (UploadFile.content_type file)
    ["application/pdf"; "application/octet-stream"] = true ->
  fitz_open fitz (UploadFile.content file) = Return doc ->
  main.upload_pdf fitz dm file uuid4_hex fs
  = (Respond {| UploadResponse.document_id := uuid4_hex;
                UploadResponse.page_count := Document.page_count doc |} [],
     <[_document_path dm uuid4_hex := UploadFile.content file]> fs).
Proof.
  intros Hct Ho. unfold main.upload_pdf. rewrite Hct. simpl.
  unfold save_pdf, write_bytes, lift, mbind, mret, M_bind, M_ret.
  by rewrite Ho.
Qed.

Lemma upload_pdf_outcomes_witness :
  main.upload_pdf Fixture.engine Fixture.manager
    {| UploadFile.content_type := None;
       UploadFile.content := Fixture.pdf_bytes |} "0af3" ∅
  = (HTTPException 400 "Only PDF files are supported", ∅)
  /\ main.upload_pdf Fixture.engine Fixture.manager
       {| UploadFile.content_type := Some "application/octet-stream";
          UploadFile.content := list_byte_of_string "junk" |} "0af3" ∅
     = (Uncaught (FileDataError "Failed to open stream"),
        <[_document_path Fixture.manager "0af3"
          := list_byte_of_string "junk"]> ∅).
Proof.
  split.
  - pose proof (upload_pdf_outcomes Fixture.engine Fixture.manager
                  {| UploadFile.content_type := None;
                     UploadFile.content := Fixture.pdf_bytes |} "0af3" ∅)
      as H.
    cbv zeta in H. destruct H as (H & _ & _). apply H. reflexivity.
  - pose proof (upload_pdf_outcomes Fixture.engine Fixture.manager
                  {| UploadFile.content_type := Some "application/octet-stream";
                     UploadFile.content := list_byte_of_string "junk" |}
                  "0af3" ∅) as H.
    cbv zeta in H. destruct H as (_ & _ & H). apply H; reflexivity.
Defined.



Lemma list_page_images_route_items_witness :
  exists body,
    main.list_page_images Fixture.engine Fixture.manager "doc" 1 true
      Fixture.store
    = (Respond body [("Cache-Control", "no-store")], Fixture.store)
    /\ length (PageImagesResponse.images body) = 4%nat.
Proof.
  destruct (list_page_images_route_items Fixture.engine Fixture.manager
              "doc" 1 true Fixture.store Fixture.page1_images 612%Q 792%Q
              Fixture_listing_page1) as (body & Hr & _ & _ & Hlen & _).
  exists body. split; [exact Hr|exact Hlen].
Defined.

Lemma upload_then_download_witness :
  exists pdf_path,
    main.download_document Fixture.manager "0af3"
      (<[_document_path Fixture.manager "0af3" := Fixture.pdf_bytes]> ∅)
    = (Respond {| FileResponse.path := pdf_path;
                  FileResponse.media_type := "application/pdf";
                  FileResponse.filename := "pdf-image-surgeon-0af3.pdf" |} [],
       <[_document_path Fixture.manager "0af3" := Fixture.pdf_bytes]> ∅)
    /\ (<[_document_path Fixture.manager "0af3" := Fixture.pdf_bytes]> ∅ : FS)
         !! pdf_path = Some Fixture.pdf_bytes.
Proof.
  apply (upload_then_download Fixture.engine Fixture.manager
           {| UploadFile.content_type := Some "application/pdf";
              UploadFile.content := Fixture.pdf_bytes |} "0af3" ∅
           {| UploadResponse.document_id := "0af3";
              UploadResponse.page_count := 2 |} []).
  apply (upload_pdf_accepted Fixture.engine Fixture.manager
           {| UploadFile.content_type := Some "application/pdf";
              UploadFile.content := Fixture.pdf_bytes |} "0af3" ∅
           Fixture.document); reflexivity.
Defined.

(** ** When a replacement returns *)

(** X17. [replace_page_image] returns only after everything went well:
    the page listed, the index is one of the list, the bytes gave a
    pixmap, the engine replaced the resource of the occurrence at that
    index on the page of that number, and saved the result incrementally,
    keeping the encryption, over the stored bytes; the store then holds what
    this save produced, for the document and nowhere else. *)
Theorem replace_page_image_returns_after_save :
  forall fitz pil self doc_id page_number image_index raw fs fs',
    replace_page_image fitz pil self doc_id page_number image_index raw fs
    = (Return tt, fs') ->
    exists images size target pix old doc doc' new,
      list_page_images fitz self doc_id page_number fs
      = (Return (images, size), fs)
      /\ 0 <= image_index < Z.of_nat (length images)
      /\ images !! Z.to_nat image_index = Some target
      /\ _pixmap_from_bytes fitz pil raw = Return pix
      /\ fs !! _document_path self doc_id = Some old
      /\ fitz_open fitz old = Return doc
      /\ replace_image fitz doc (page_number - 1) (PageImage.xref target) pix
         = Return doc'
      /\ save fitz doc' (Some old) true PDF_ENCRYPT_KEEP = Return new
      /\ fs' = <[_document_path self doc_id := new]> fs.
Proof.
  intros fitz pil self doc_id page_number image_index raw fs fs' Hret.
  destruct (fs !! _document_path self doc_id) as [old|] eqn:Hfs.
  2:{ destruct (replace_page_image_absent fitz pil self doc_id page_number
                  image_index raw fs Hfs) as [e He].
      by rewrite He in Hret. }
  pose proof (list_page_images_fs fitz self doc_id page_number fs) as Hl2.
  destruct (list_page_images fitz self doc_id page_number fs)
    as [[[images size]|e] fs1] eqn:Hl; simpl in Hl2; subst fs1;
    [|by rewrite (replace_page_image_not_listed _ _ _ _ _ _ _ _ _ Hl) in Hret].
  pose proof (listed_indexed _ _ _ _ _ _ _ _ Hl) as Hidx.
  rewrite (replace_page_image_listed _ _ _ _ _ _ _ _ _ _ Hl) in Hret.
  destruct (decide (0 <= image_index < Z.of_nat (length images)))
    as [Hin|Hout].
  2:{ rewrite (find_indexed_from_None image_index images 0 Hidx) in Hret
        by lia. done. }
  rewrite (find_indexed_from image_index images 0 Hidx) in Hret by lia.
  rewrite Z.sub_0_r in Hret.
  destruct (images !! Z.to_nat image_index) as [target|] eqn:Ht; [|done].
  destruct (_pixmap_from_bytes fitz pil raw) as [pix|e] eqn:Hpix; [|done].
  unfold fitz_open_path, read_bytes, lift, Document_save, mbind, M_bind
    in Hret.
  rewrite Hfs in Hret.
  destruct (fitz_open fitz old) as [doc|e] eqn:Ho; [|done].
  destruct (Document.load_page doc (page_number - 1)) as [page|e]; [|done].
  destruct (replace_image fitz doc (page_number - 1) (PageImage.xref target) pix)
    as [doc'|e] eqn:Hr; [|done].
  rewrite Hfs in Hret.
  destruct (save fitz doc' (Some old) true PDF_ENCRYPT_KEEP) as [new|e] eqn:Hs;
    [|done].
  inversion Hret; subst fs'.
  by exists images, size, target, pix, old, doc, doc', new.
Qed.

Lemma replace_page_image_returns_after_save_witness :
  exists images size target pix old doc doc' new,
    list_page_images Fixture.engine Fixture.manager "doc" 1 Fixture.store
    = (Return (images, size), Fixture.store)
    /\ 0 <= 0 < Z.of_nat (length images)
    /\ images !! Z.to_nat 0 = Some target
    /\ _pixmap_from_bytes Fixture.engine Fixture.decoder
         (list_byte_of_string "Rabcdef") = Return pix
    /\ Fixture.store !! _document_path Fixture.manager "doc" = Some old
    /\ fitz_open Fixture.engine old = Return doc
    /\ replace_image Fixture.engine doc (1 - 1) (PageImage.xref target) pix
       = Return doc'
    /\ save Fixture.engine doc' (Some old) true PDF_ENCRYPT_KEEP = Return new
    /\ <[_document_path Fixture.manager "doc"
         := Fixture.pdf_bytes ++ list_byte_of_string "xref"]> Fixture.store
       = <[_document_path Fixture.manager "doc" := new]> Fixture.store.
Proof.
  apply (replace_page_image_returns_after_save Fixture.engine Fixture.decoder
           Fixture.manager "doc" 1 0 (list_byte_of_string "Rabcdef")
           Fixture.store).
  exact Fixture_replace_returns.
Defined.

(** ** Documents stay *)

Lemma run_call_keeps fitz pil self c fs path :
  is_Some (fs !! path) -> is_Some (run_call fitz pil self c fs !! path).
Proof.
  intros Hp. destruct c as [u b|d|d n z|d n|d n i raw]; simpl.
  - rewrite save_pdf_fs.
    destruct (decide (_document_path self u = path)) as [<-|Hne].
    + rewrite lookup_insert_eq. by eexists.
    + by rewrite lookup_insert_ne.
  - unfold get_pdf_file. by rewrite _ensure_document_fs.
  - by rewrite get_page_preview_fs.
  - by rewrite list_page_images_fs.
  - destruct (replace_page_image_store fitz pil self d n i raw fs)
      as [[e ->]|(doc & old & new & Hold & _ & ->)]; simpl; [done|].
    destruct (decide (_document_path self d = path)) as [<-|Hne].
    + rewrite lookup_insert_eq. by eexists.
    + by rewrite lookup_insert_ne.
Qed.

(** X18. No call removes a file: a document that is stored is still
    stored after any sequence of uploads, downloads, previews, listings and
    replacements, so that [get_pdf_file] finds it then. *)
Theorem stored_documents_stay :
  forall fitz pil self calls fs doc_id,
    is_Some (fs !! _document_path self doc_id) ->
    let fs' := run_calls fitz pil self calls fs in
    get_pdf_file self doc_id fs' = (Return (_document_path self doc_id), fs').
Proof.
  intros fitz pil self calls fs doc_id Hs fs'.
  assert (H : is_Some (fs' !! _document_path self doc_id)).
  { unfold fs', run_calls. clear fs'. revert fs Hs.
    induction calls as [|c calls IH]; intros fs Hs; [done|].
    simpl. apply IH. by apply run_call_keeps. }
  destruct H as [data H]. by eapply _ensure_document_found.
Qed.

Lemma stored_documents_stay_witness :
  get_pdf_file Fixture.manager "doc"
    (run_calls Fixture.engine Fixture.decoder Fixture.manager
       [call_replace_page_image "doc" 1 0 (list_byte_of_string "Rabcdef");
        call_save_pdf "doc" (list_byte_of_string "junk")] Fixture.store)
  = (Return (_document_path Fixture.manager "doc"),
     run_calls Fixture.engine Fixture.decoder Fixture.manager
       [call_replace_page_image "doc" 1 0 (list_byte_of_string "Rabcdef");
        call_save_pdf "doc" (list_byte_of_string "junk")] Fixture.store).
Proof.
  apply (stored_documents_stay Fixture.engine Fixture.decoder Fixture.manager
           [call_replace_page_image "doc" 1 0 (list_byte_of_string "Rabcdef");
            call_save_pdf "doc" (list_byte_of_string "junk")]
           Fixture.store "doc").
  rewrite Fixture_store_doc. by eexists.
Defined.
